(** * Messej: the profile ("memory") logic of chatbot-messe.py

    A shallow embedding of the parts of [chatbot-messe.py] that decide what
    the daily-digest assistant remembers and asks: the memory store
    ([load_memory], [save_memory]), the question planner
    ([get_next_question]), the fact extractor ([update_memory_from_response],
    [get_weather_context]), the news fetch and the digest composer
    ([get_daily_news_headlines], [build_daily_email_content]) and the run
    itself ([main]).

    Conventions.
    - Values decoded by [json.loads] / [response.json()] are terms of [json].
      A Python [str] is a [string], one [ascii] per character.
    - A Python [dict] with string keys that the program owns (the
      [user_info] and [core_attributes] dictionaries) is a [gmap string json];
      a Python [set] of strings is a [gset string].
    - Every call that leaves the process (language model, HTTP, mail, clock)
      is answered by an explicit outcome supplied by the caller of the model;
      an outcome is either a value or a raised exception.  The text of the
      prompts is not modelled: the outcome is quantified over instead.
    - A Python function that can raise returns a [result].
    - The two files are read as they are on disk; writing them is taken to
      succeed. *)

From Stdlib Require Import ZArith String Ascii.
From stdpp Require Import base option list gmap sets strings.

Open Scope string_scope.
Set Warnings "-register-all".

(** ** Python values *)

(** A value produced by [json.loads].  Objects keep their entries in
    insertion order, as a Python [dict] does, and name each key once.  The
    program never computes with a number, it only tests whether one is zero;
    numbers are kept as integers, and a number written with a fraction or an
    exponent has no counterpart here. *)
Inductive json : Type :=
| JNull
| JBool (b : bool)
| JNum (n : Z)
| JStr (s : string)
| JArr (items : list json)
| JObj (entries : list (string * json)).

(** Exceptions the modelled code can raise. *)
Inductive exn : Type :=
| KeyError (key : string)
| IndexError
| TypeError
| AttributeError
| ValueError
| JSONDecodeError
| ExternalError (what : string).

Inductive result (A : Type) : Type :=
| Ok (a : A)
| Raise (e : exn).
Arguments Ok {A} a.
Arguments Raise {A} e.

#[global] Instance result_ret : MRet result := fun _ a => Ok a.

#[global] Instance result_bind : MBind result := fun _ _ k r =>
  match r with
  | Ok a => k a
  | Raise e => Raise e
  end.

Definition raised {A} (r : result A) : Prop :=
  match r with Ok _ => False | Raise _ => True end.

(** [bool(v)]: Python truth value of a decoded JSON value. *)
Definition truthy (v : json) : bool :=
  match v with
  | JNull => false
  | JBool b => b
  | JNum n => negb (n =? 0)%Z
  | JStr s => negb (String.eqb s "")
  | JArr items => match items with [] => false | _ => true end
  | JObj entries => match entries with [] => false | _ => true end
  end.

(** Truth value of an optional string ([None] or a [str]). *)
Definition truthy_str (v : option string) : bool :=
  match v with
  | None => false
  | Some s => negb (String.eqb s "")
  end.

(** [d.get(k)]: the value under [k], [None] when the key is absent. *)
Definition dict_get (d : gmap string json) (k : string) : json :=
  default JNull (d !! k).

(** [k in d] for a dictionary. *)
Definition dict_has (d : gmap string json) (k : string) : bool :=
  bool_decide (is_Some (d !! k)).

(** [x in s] for a set of strings. *)
Definition set_has (s : gset string) (x : string) : bool :=
  bool_decide (x ∈ s).

(** [needle in haystack] for two strings: substring test. *)
Fixpoint is_substring (needle haystack : string) : bool :=
  String.prefix needle haystack ||
  match haystack with
  | EmptyString => false
  | String _ rest => is_substring needle rest
  end.

(** Writing the entries of a decoded object into a dictionary, in order. *)
Definition write_entries (d : gmap string json) (entries : list (string * json))
  : gmap string json :=
  foldl (fun acc kv => <[kv.1 := kv.2]> acc) d entries.

(** The entries of a decoded object, read as a dictionary. *)
Definition obj_lookup (entries : list (string * json)) (k : string) : option json :=
  write_entries ∅ entries !! k.

(** [k in v] where [k] is a string and [v] a decoded JSON value: key test on
    an object, element test on an array, substring test on a string, a
    [TypeError] on the values that are not containers. *)
Definition py_in (k : string) (v : json) : result bool :=
  match v with
  | JObj entries => Ok (bool_decide (is_Some (obj_lookup entries k)))
  | JArr items =>
      Ok (existsb (fun x => match x with JStr s => String.eqb s k | _ => false end) items)
  | JStr s => Ok (is_substring k s)
  | JNull | JBool _ | JNum _ => Raise TypeError
  end.

(** [v[k]] with a string [k]. *)
Definition py_getitem (v : json) (k : string) : result json :=
  match v with
  | JObj entries =>
      match obj_lookup entries k with
      | Some x => Ok x
      | None => Raise (KeyError k)
      end
  | _ => Raise TypeError
  end.

(** [v[0]]. *)
Definition py_first (v : json) : result json :=
  match v with
  | JArr items => match items with x :: _ => Ok x | [] => Raise IndexError end
  | JStr s => match s with String c _ => Ok (JStr (String c "")) | "" => Raise IndexError end
  | JObj _ => Raise (KeyError "0")
  | JNull | JBool _ | JNum _ => Raise TypeError
  end.

(** How [dict.update] reads one element of a sequence argument: as a
    key/value pair.  The element must itself be a sequence of length two
    (an array, a two-character string, or a dictionary, which iterates over
    its keys), and its first component must be hashable. *)
Inductive pair_item : Type :=
| PairStr (k : string) (v : json)
| PairNonStr
| PairRaise (e : exn).

Definition as_pair (item : json) : pair_item :=
  match item with
  | JArr [k; v] =>
      match k with
      | JStr s => PairStr s v
      | JNull | JBool _ | JNum _ => PairNonStr
      | JArr _ | JObj _ => PairRaise TypeError
      end
  | JArr _ => PairRaise ValueError
  | JStr (String a (String b "")) => PairStr (String a "") (JStr (String b ""))
  | JStr _ => PairRaise ValueError
  | JObj [(k1, _); (k2, _)] => PairStr k1 (JStr k2)
  | JObj _ => PairRaise ValueError
  | JNull | JBool _ | JNum _ => PairRaise TypeError
  end.

(** [d.update(seq)]: the pairs are written one by one, so the ones before a
    bad element stay written.  The dictionaries of the memory are only ever
    read under string keys; a pair whose key is a number, a boolean or
    [None] is written under a key that no such read sees, and is left out
    of the string-keyed view kept here ([json.dump] would write such a key
    as a string: a memory that holds one is outside what [save_memory] is
    described for). *)
Fixpoint update_pairs (d : gmap string json) (items : list json)
  : gmap string json * option exn :=
  match items with
  | [] => (d, None)
  | item :: rest =>
      match as_pair item with
      | PairStr k v => update_pairs (<[k := v]> d) rest
      | PairNonStr => update_pairs d rest
      | PairRaise e => (d, Some e)
      end
  end.

(** [d.update(other)]: the dictionary afterwards, and the exception if the
    call raised.  An object overwrites key by key; an array is a sequence of
    pairs; a string is a sequence of one-character strings, none of which is
    a pair; the other values are not iterable. *)
Definition dict_update (d : gmap string json) (other : json)
  : gmap string json * option exn :=
  match other with
  | JObj entries => (write_entries d entries, None)
  | JArr items => update_pairs d items
  | JStr "" => (d, None)
  | JStr _ => (d, Some ValueError)
  | JNull | JBool _ | JNum _ => (d, Some TypeError)
  end.

(** ** The memory record *)

Record weather_context_t : Type := WeatherContext {
  last_checked : json;
  conditions : json
}.

Record history_entry : Type := HistoryEntry {
  timestamp : string;
  user_message : string;
  extracted_info : json
}.

(** The dictionary built by [load_memory], with the [pending_question] key
    that [build_daily_email_content] and [update_memory_from_response] add
    ([None] stands for an absent key as well as for a [None] value: the
    program only reads it through [memory.get]). *)
Record memory : Type := Memory {
  user_info : gmap string json;
  core_attributes : gmap string json;
  conversation_history : list history_entry;
  topics_discussed : gset string;
  questions_asked : gset string;
  last_interaction : option string;
  weather_context : weather_context_t;
  pending_question : option string
}.

(** The structure [load_memory] returns when there is no usable file. *)
Definition empty_memory : memory :=
  {| user_info := ∅;
     core_attributes :=
       <["location" := JNull]> (<["timezone" := JNull]>
       (<["weather_preference" := JNull]> (<["daily_routine" := JNull]>
       (<["local_interests" := JNull]> (<["season_preference" := JNull]> ∅)))));
     conversation_history := [];
     topics_discussed := ∅;
     questions_asked := ∅;
     last_interaction := None;
     weather_context := {| last_checked := JNull; conditions := JNull |};
     pending_question := None |}.

Definition set_core_attributes (m : memory) (d : gmap string json) : memory :=
  {| user_info := user_info m;
     core_attributes := d;
     conversation_history := conversation_history m;
     topics_discussed := topics_discussed m;
     questions_asked := questions_asked m;
     last_interaction := last_interaction m;
     weather_context := weather_context m;
     pending_question := pending_question m |}.

Definition set_user_info (m : memory) (d : gmap string json) : memory :=
  {| user_info := d;
     core_attributes := core_attributes m;
     conversation_history := conversation_history m;
     topics_discussed := topics_discussed m;
     questions_asked := questions_asked m;
     last_interaction := last_interaction m;
     weather_context := weather_context m;
     pending_question := pending_question m |}.

Definition set_weather_context (m : memory) (w : weather_context_t) : memory :=
  {| user_info := user_info m;
     core_attributes := core_attributes m;
     conversation_history := conversation_history m;
     topics_discussed := topics_discussed m;
     questions_asked := questions_asked m;
     last_interaction := last_interaction m;
     weather_context := w;
     pending_question := pending_question m |}.

Definition set_pending_question (m : memory) (q : option string) : memory :=
  {| user_info := user_info m;
     core_attributes := core_attributes m;
     conversation_history := conversation_history m;
     topics_discussed := topics_discussed m;
     questions_asked := questions_asked m;
     last_interaction := last_interaction m;
     weather_context := weather_context m;
     pending_question := q |}.

Definition set_conversation_history (m : memory) (h : list history_entry) : memory :=
  {| user_info := user_info m;
     core_attributes := core_attributes m;
     conversation_history := h;
     topics_discussed := topics_discussed m;
     questions_asked := questions_asked m;
     last_interaction := last_interaction m;
     weather_context := weather_context m;
     pending_question := pending_question m |}.

Definition set_last_interaction (m : memory) (t : option string) : memory :=
  {| user_info := user_info m;
     core_attributes := core_attributes m;
     conversation_history := conversation_history m;
     topics_discussed := topics_discussed m;
     questions_asked := questions_asked m;
     last_interaction := t;
     weather_context := weather_context m;
     pending_question := pending_question m |}.

Definition set_questions_asked (m : memory) (s : gset string) : memory :=
  {| user_info := user_info m;
     core_attributes := core_attributes m;
     conversation_history := conversation_history m;
     topics_discussed := topics_discussed m;
     questions_asked := s;
     last_interaction := last_interaction m;
     weather_context := weather_context m;
     pending_question := pending_question m |}.

(** ** Calls that leave the process *)

Inductive call : Type :=
| ChatCompletion (model : string)
| HttpGet (url : string)
| ImapFetch
| SmtpSend
| FileWrite (filename : string).

(** The weather service as [get_weather_context] uses it: the configured
    key, the two HTTP requests with the decoding of their bodies, and the
    time-zone database. *)
Record weather_service : Type := WeatherService {
  WEATHER_API_KEY : option string;
  (** [requests.get(geo_url, q=location).json()] *)
  geocode : json → result json;
  (** [requests.get(weather_url, lat=.., lon=..).json()] *)
  current_weather : json → json → result json;
  (** [datetime.now(ZoneInfo(timezone)).strftime("%H:%M")], [None] when the
      zone lookup raises *)
  zone_time : json → option string
}.

Definition geo_url : string := "http://api.openweathermap.org/geo/1.0/direct".
Definition weather_url : string := "https://api.openweathermap.org/data/2.5/weather".

(** The dictionary [get_weather_context] returns, built field by field. *)
Definition weather_report (data : json) (local_time : option string) : result json :=
  w ← py_getitem data "weather"; w0 ← py_first w; condition ← py_getitem w0 "main";
  w ← py_getitem data "weather"; w0 ← py_first w; description ← py_getitem w0 "description";
  mn ← py_getitem data "main"; temp ← py_getitem mn "temp";
  mn ← py_getitem data "main"; feels_like ← py_getitem mn "feels_like";
  mn ← py_getitem data "main"; humidity ← py_getitem mn "humidity";
  Ok (JObj [ ("condition", condition); ("description", description);
             ("temp", temp); ("feels_like", feels_like); ("humidity", humidity);
             ("local_time", from_option JStr JNull local_time) ]).

(** [get_weather_context]: the report, or [JNull] for Python's [None],
    together with the requests that were sent. *)
Definition get_weather_context (svc : weather_service) (location timezone : json)
  : json * list call :=
  if negb (truthy_str (WEATHER_API_KEY svc)) || negb (truthy location) then (JNull, [])
  else
    match geocode svc location with
    | Raise _ => (JNull, [HttpGet geo_url])
    | Ok geo_data =>
        if negb (truthy geo_data) then (JNull, [HttpGet geo_url])
        else
          match (g ← py_first geo_data; lat ← py_getitem g "lat";
                 g ← py_first geo_data; lon ← py_getitem g "lon";
                 Ok (lat, lon)) with
          | Raise _ => (JNull, [HttpGet geo_url])
          | Ok (lat, lon) =>
              match current_weather svc lat lon with
              | Raise _ => (JNull, [HttpGet geo_url; HttpGet weather_url])
              | Ok data =>
                  let local_time :=
                    if truthy timezone then zone_time svc timezone else None in
                  match weather_report data local_time with
                  | Raise _ => (JNull, [HttpGet geo_url; HttpGet weather_url])
                  | Ok report => (report, [HttpGet geo_url; HttpGet weather_url])
                  end
              end
          end
    end.

(** ** Fact extractor *)

(** What the world answers while one email is folded into the memory. *)
Record extraction_io : Type := ExtractionIo {
  (** the completion call and [json.loads] of the stripped content: the
      decoded value, or the exception either of them raised *)
  extraction_reply : result json;
  weather : weather_service;
  (** the three readings of [datetime.now().isoformat()] *)
  now_weather : string;
  now_history : string;
  now_last : string
}.

(** [if key in extracted_info: d.update(extracted_info[key])]. *)
Definition update_from (d : gmap string json) (extracted : json) (key : string)
  : gmap string json * option exn :=
  match py_in key extracted with
  | Raise e => (d, Some e)
  | Ok false => (d, None)
  | Ok true =>
      match py_getitem extracted key with
      | Raise e => (d, Some e)
      | Ok other => dict_update d other
      end
  end.

(** The two merges of the extractor, lines 255-261: the memory afterwards and
    the exception that cut them short, if any. *)
Definition merge_extracted (m : memory) (extracted : json) : memory * option exn :=
  let '(core, err) := update_from (core_attributes m) extracted "core_attributes" in
  let m := set_core_attributes m core in
  match err with
  | Some e => (m, Some e)
  | None =>
      let '(info, err) := update_from (user_info m) extracted "user_info" in
      (set_user_info m info, err)
  end.

(** [update_memory_from_response].  The memory dictionary is updated in
    place inside the [try]; an exception leaves the function through the
    [except] clause, which logs it and falls through to [return memory], so
    whatever was written before the exception stays written. *)
Definition update_memory_from_response
    (io : extraction_io) (m : memory) (email_text : option string) (email_summary : string)
  : memory * list call :=
  if negb (truthy_str email_text) then (m, [])
  else
    let calls := [ChatCompletion "gpt-3.5-turbo"] in
    match extraction_reply io with
    | Raise _ => (m, calls)
    | Ok extracted =>
        match merge_extracted m extracted with
        | (m, Some _) => (m, calls)
        | (m, None) =>
            let '(m, calls) :=
              if truthy (dict_get (core_attributes m) "location") then
                let '(weather_data, requests) :=
                  get_weather_context (weather io)
                    (dict_get (core_attributes m) "location")
                    (dict_get (core_attributes m) "timezone") in
                if truthy weather_data then
                  (set_weather_context m
                     {| last_checked := JStr (now_weather io);
                        conditions := weather_data |},
                   (calls ++ requests)%list)
                else (m, (calls ++ requests)%list)
              else (m, calls) in
            let m := set_pending_question m None in
            let m := set_conversation_history m
                       (conversation_history m ++
                        [ {| timestamp := now_history io;
                             user_message := email_summary;
                             extracted_info := extracted |} ])%list in
            let m := set_last_interaction m (Some (now_last io)) in
            (m, calls)
        end
    end.

(** ** Question planner *)

Definition location_questions : list string :=
  [ "I'd love to know what city/area you live in! It would help me share more relevant updates and chat about local happenings.";
    "I'm always curious about different places - where are you writing from?";
    "I'd love to add some local context to our chats. Which city/area do you call home?";
    "Speaking of places, I'd love to know where you're based! What city/area are you in?";
    "I bet there are interesting things happening in your area! Where are you located?" ].

Definition location_fallback : string :=
  "I notice I still don't know where you're based - I'd love to make our conversations more locally relevant. What city/area are you in?".

Definition basic_questions : list (string * string) :=
  [ ("name", "I'd love to know what you prefer to be called. What name should I use?");
    ("interests", "I'm curious about what interests you. What are some things you enjoy doing?");
    ("work", "What kind of work do you do?");
    ("learning", "Is there anything specific you're learning or want to learn about lately?");
    ("goals", "Do you have any particular goals you're working towards?");
    ("news_preferences", "Are there specific types of news topics you're most interested in?");
    ("fun_facts", "Do you have any favorite topics for the random facts I share?") ].

Section Planner.

(** [str(v)] as an f-string computes it for a decoded JSON value.  The
    planner only interpolates the stored location. *)
Variable py_str : json → string.

Definition get_next_question (m : memory) : option string :=
  let core := core_attributes m in
  if negb (truthy (dict_get core "location")) then
    let asked := questions_asked m in
    match find (fun question => negb (set_has asked question)) location_questions with
    | Some question => Some question
    | None => Some location_fallback
    end
  else if negb (truthy (dict_get core "timezone")) then
    Some "To help me time these emails better, could you let me know what timezone you're in?"
  else if negb (truthy (dict_get core "weather_preference")) then
    Some ("How do you typically feel about the weather in "
          +:+ py_str (dict_get core "location") +:+ "? Any favorite conditions?")
  else if negb (truthy (dict_get core "daily_routine")) then
    Some "Are you more of an early bird or a night owl? I want to make sure I'm catching you at a good time!"
  else if negb (truthy (dict_get core "local_interests")) then
    Some ("What kind of local activities or spots do you enjoy in "
          +:+ py_str (dict_get core "location") +:+ "?")
  else if negb (truthy (dict_get core "season_preference")) then
    Some ("With the weather patterns in " +:+ py_str (dict_get core "location")
          +:+ ", do you have a favorite season? What makes it special?")
  else if truthy_str (pending_question m) then None
  else
    snd <$> find (fun '(topic, question) =>
                    negb (dict_has (user_info m) topic)
                    && negb (set_has (questions_asked m) question))
                 basic_questions.

End Planner.

(** ** Memory store *)

(** The document kept in [chatbot_memory.json]: the memory with its two sets
    written as arrays.  The encoding of the document as text is not
    modelled; a file that is missing or does not decode is [None] below. *)
Record memory_document : Type := MemoryDocument {
  doc_user_info : gmap string json;
  doc_core_attributes : gmap string json;
  doc_conversation_history : list history_entry;
  doc_topics_discussed : list string;
  doc_questions_asked : list string;
  doc_last_interaction : option string;
  doc_weather_context : weather_context_t;
  doc_pending_question : option string
}.

(** [load_memory]: the sets are rebuilt from the arrays; without a usable
    file the empty structure is returned. *)
Definition load_memory (file : option memory_document) : memory :=
  match file with
  | Some data =>
      {| user_info := doc_user_info data;
         core_attributes := doc_core_attributes data;
         conversation_history := doc_conversation_history data;
         topics_discussed := list_to_set (doc_topics_discussed data);
         questions_asked := list_to_set (doc_questions_asked data);
         last_interaction := doc_last_interaction data;
         weather_context := doc_weather_context data;
         pending_question := doc_pending_question data |}
  | None => empty_memory
  end.

Section Store.

(** [list(s)] for a set: its elements, each once, in the order the
    interpreter iterates over them. *)
Variable list_of_set : gset string → list string.

(** [save_memory]: the document that replaces the file. *)
Definition save_memory (memory_data : memory) : memory_document :=
  {| doc_user_info := user_info memory_data;
     doc_core_attributes := core_attributes memory_data;
     doc_conversation_history := conversation_history memory_data;
     doc_topics_discussed := list_of_set (topics_discussed memory_data);
     doc_questions_asked := list_of_set (questions_asked memory_data);
     doc_last_interaction := last_interaction memory_data;
     doc_weather_context := weather_context memory_data;
     doc_pending_question := pending_question memory_data |}.

End Store.

(** ** Stripping *)

Section Strip.

(** [c.isspace()] for a character, as [str.strip] consults it. *)
Variable isspace : ascii → bool.

(** [s.lstrip()]. *)
Fixpoint lstrip (s : string) : string :=
  match s with
  | EmptyString => ""
  | String c rest => if isspace c then lstrip rest else s
  end.

(** [s.rstrip()]. *)
Fixpoint rstrip (s : string) : string :=
  match s with
  | EmptyString => ""
  | String c rest =>
      match rstrip rest with
      | EmptyString => if isspace c then "" else String c ""
      | kept => String c kept
      end
  end.

(** [s.strip()]. *)
Definition py_strip (s : string) : string := rstrip (lstrip s).

End Strip.

(** ** News and digest *)

Section Digest.

Variable py_str : json → string.

(** [str(e)] for a caught exception. *)
Variable exn_str : exn → string.

(** [c.isspace()] for a character. *)
Variable isspace : ascii → bool.

(** One entry of the list comprehension of [get_daily_news_headlines]. *)
Definition news_item (article : json) : result json :=
  title ← py_getitem article "title";
  url ← py_getitem article "url";
  source ← py_getitem article "source";
  name ← py_getitem source "name";
  Ok (JObj [("title", title); ("url", url); ("source", name)]).

(** [for article in articles]: the values a decoded JSON value iterates
    over. *)
Definition py_iter (v : json) : result (list json) :=
  match v with
  | JArr items => Ok items
  | JObj entries => Ok (JStr <$> entries.*1)
  | JStr s => Ok ((fun c => JStr (String c "")) <$> list_ascii_of_string s)
  | JNull | JBool _ | JNum _ => Raise TypeError
  end.

(** [data.get("articles", [])]. *)
Definition get_articles (data : json) : result json :=
  match data with
  | JObj entries => Ok (default (JArr []) (obj_lookup entries "articles"))
  | _ => Raise AttributeError
  end.

(** [get_daily_news_headlines]: [news_reply] is the outcome of
    [requests.get(url, params).json()]. *)
Definition get_daily_news_headlines
    (NEWS_API_KEY : option string) (news_reply : result json) : list json * list call :=
  if negb (truthy_str NEWS_API_KEY) then
    ([JObj [("title", JStr "No NEWS_API_KEY found. Please set it in your .env file.");
            ("url", JNull)]], [])
  else
    let calls := [HttpGet "https://newsapi.org/v2/top-headlines"] in
    match (data ← news_reply;
           articles ← get_articles data;
           items ← py_iter articles;
           mapM news_item items) with
    | Ok news_items => (news_items, calls)
    | Raise e =>
        ([JObj [("title", JStr ("Error fetching news: " +:+ exn_str e));
                ("url", JNull)]], calls)
    end.

(** One line of [news_formatted]. *)
Definition format_news (news : json) : result string :=
  title ← py_getitem news "title";
  source ← py_getitem news "source";
  url ← py_getitem news "url";
  Ok ("- " +:+ py_str title +:+ " (from " +:+ py_str source
      +:+ ") - Read more: " +:+ py_str url).

(** Recording the question that went into the digest. *)
Definition record_question (m : memory) (next_question : string) : memory :=
  set_questions_asked (set_pending_question m (Some next_question))
                      ({[ next_question ]} ∪ questions_asked m).

(** [build_daily_email_content].  [compose_reply] is the outcome of the
    completion call: it raises, or it returns a reply whose content is a
    string or is missing.  The memory is updated in place between the call
    and the [return], which strips the content (line 563) and raises when
    the content is missing. *)
Definition build_daily_email_content
    (compose_reply : result (option string))
    (inline_response : string) (news_list : list json) (random_fact : string)
    (m : memory) (daily_gossip : string)
  : result (string * memory) * list call :=
  match mapM format_news news_list with
  | Raise e => (Raise e, [])
  | Ok news_formatted =>
      let next_question := get_next_question py_str m in
      let calls := [ChatCompletion "gpt-4o-mini-2024-07-18"] in
      match compose_reply with
      | Raise e => (Raise e, calls)
      | Ok message =>
          let m :=
            match next_question with
            | Some q => if truthy_str next_question then record_question m q else m
            | None => m
            end in
          match message with
          | Some content => (Ok (py_strip isspace content, m), calls)
          | None => (Raise AttributeError, calls)
          end
      end
  end.

End Digest.

(** ** The run *)

(** An entry of [chat_log.json]. *)
Inductive log_data : Type :=
| Incoming (timestamp subject email_text gpt_summary : string)
| Outgoing (timestamp subject message_body : string).

(** The two files of the program; [None] is a file that is missing or does
    not decode. *)
Record files : Type := Files {
  memory_file : option memory_document;
  chat_log_file : option (list log_data)
}.

(** The state a run acts on: the files, and the calls made so far, oldest
    first.  It outlives an exception. *)
Record run_state : Type := RunState {
  disk : files;
  trace : list call
}.

Definition prog (A : Type) : Type := run_state → result A * run_state.

#[global] Instance prog_ret : MRet prog := fun _ a s => (Ok a, s).

#[global] Instance prog_bind : MBind prog := fun _ _ k p s =>
  match p s with
  | (Ok a, s') => k a s'
  | (Raise e, s') => (Raise e, s')
  end.

(** Appending to the trace. *)
Definition emit (cs : list call) : prog unit := fun s =>
  (Ok tt, {| disk := disk s; trace := (trace s ++ cs)%list |}).

(** A call that leaves the process, with the outcome the world gives it. *)
Definition external {A} (c : call) (outcome : result A) : prog A := fun s =>
  (outcome, {| disk := disk s; trace := (trace s ++ [c])%list |}).

(** A step that raises or returns without touching the state. *)
Definition lift {A} (r : result A) : prog A := fun s => (r, s).

(** The default [filename] of [load_memory] and [save_memory]. *)
Definition memory_filename : string := "chatbot_memory.json".

(** [load_memory()] on the memory file as it is on disk. *)
Definition read_memory_file : prog memory := fun s =>
  (Ok (load_memory (memory_file (disk s))), s).

(** [save_memory(memory)]: the document replaces the memory file.  The
    write is taken to go through: a run in which [open] or [json.dump]
    raises at lines 83-84, leaving the file as it was or cut short, is not
    among the runs described here. *)
Definition write_memory_file (doc : memory_document) : prog unit := fun s =>
  (Ok tt, {| disk := {| memory_file := Some doc;
                        chat_log_file := chat_log_file (disk s) |};
             trace := (trace s ++ [FileWrite memory_filename])%list |}).

(** [log_to_json]: the existing messages, or none when the file is missing
    or does not decode, with the new entry appended.  As for the memory
    file, the write is taken to go through. *)
Definition log_to_json (entry : log_data) : prog unit := fun s =>
  (Ok tt, {| disk := {| memory_file := memory_file (disk s);
                        chat_log_file :=
                          Some (default [] (chat_log_file (disk s)) ++ [entry])%list |};
             trace := (trace s ++ [FileWrite "chat_log.json"])%list |}).

(** One unread email, with what the world answers while it is processed. *)
Record inbound : Type := Inbound {
  subject : string;
  body_text : string;
  (** [summarize_email_gpt]: the summary, or the exception it re-raises *)
  summary_reply : result string;
  extraction : extraction_io;
  now_logged : string
}.

(** What the world answers during one run of [main]. *)
Record run_io : Type := RunIo {
  (** [fetch_emails] *)
  inbox : result (list inbound);
  (** the stripped content of the reply to the collected summaries
      (line 648), or the exception of the call *)
  inline_reply : result string;
  NEWS_API_KEY : option string;
  (** [requests.get(url, params).json()] *)
  news_reply : result json;
  (** [get_random_fact_gpt] *)
  fact_reply : result string;
  (** [get_daily_gossip] *)
  gossip_reply : result string;
  (** the completion call of [build_daily_email_content]: the content of
      the reply as the service gave it, before it is stripped *)
  compose_reply : result (option string);
  (** [datetime.now().hour] as [main] reads it to pick the subject *)
  hour : nat;
  (** [send_email] *)
  send_outcome : result unit;
  now_sent : string
}.

Definition subject_for (hour : nat) : string :=
  if bool_decide (4 ≤ hour < 12) then "Morning chat and updates â˜€ï¸"
  else if bool_decide (12 ≤ hour < 17) then "Afternoon updates and stories ðŸŒ¤ï¸"
  else "Evening chat and news ðŸŒ™".

Section Run.

Variable py_str : json → string.
Variable exn_str : exn → string.
Variable list_of_set : gset string → list string.
Variable isspace : ascii → bool.

(** The loop of [main] over the fetched emails. *)
Fixpoint process_emails (emails : list inbound) (m : memory)
    (combined_summaries : list string) : prog (memory * list string) :=
  match emails with
  | [] => mret (m, combined_summaries)
  | email :: rest =>
      summary ← external (ChatCompletion "gpt-3.5-turbo") (summary_reply email);
      let '(m, calls) :=
        update_memory_from_response (extraction email) m
          (Some (body_text email)) summary in
      _ ← emit calls;
      _ ← log_to_json (Incoming (now_logged email) (subject email)
                                 (body_text email) summary);
      process_emails rest m (combined_summaries ++ [summary])%list
  end.

Definition main (io : run_io) : prog unit :=
  m ← read_memory_file;
  emails ← external ImapFetch (inbox io);
  '(m, combined_summaries) ← process_emails emails m [];
  inline_response ←
    (match combined_summaries with
     | [] => mret "(No new emails to respond to today.)"
     | _ => external (ChatCompletion "gpt-3.5-turbo") (inline_reply io)
     end);
  let '(news_list, calls) :=
    get_daily_news_headlines exn_str (NEWS_API_KEY io) (news_reply io) in
  _ ← emit calls;
  random_fact ← external (ChatCompletion "gpt-3.5-turbo") (fact_reply io);
  titles ← lift (mapM (fun news => py_getitem news "title") news_list);
  daily_gossip ← external (ChatCompletion "gpt-3.5-turbo") (gossip_reply io);
  let '(built, calls) :=
    build_daily_email_content py_str isspace (compose_reply io)
      inline_response news_list random_fact m daily_gossip in
  _ ← emit calls;
  '(daily_email_body, m) ← lift built;
  let subject := subject_for (hour io) in
  _ ← external SmtpSend (send_outcome io);
  _ ← log_to_json (Outgoing (now_sent io) subject daily_email_body);
  write_memory_file (save_memory list_of_set m).

End Run.

(** ** Scenarios and predicates used in the statements *)

(** [str] on the values the planner meets in practice: a stored string is
    interpolated as it is. *)
Definition str_of_text (v : json) : string :=
  match v with
  | JStr s => s
  | _ => ""
  end.

(** The six core attributes, in the order the planner looks at them. *)
Definition core_keys : list string :=
  [ "location"; "timezone"; "weather_preference"; "daily_routine";
    "local_interests"; "season_preference" ].

Definition core_known (m : memory) : bool :=
  forallb (fun k => truthy (dict_get (core_attributes m) k)) core_keys.

(** A fresh memory to which a question has been sent and not answered. *)
Definition awaiting_reply : memory :=
  set_pending_question empty_memory (Some "What kind of work do you do?").

(** A memory with every core attribute filled in and a question pending. *)
Definition settled_awaiting_reply : memory :=
  set_pending_question
    (set_core_attributes empty_memory
       (write_entries ∅
          [ ("location", JStr "Austin, Texas"); ("timezone", JStr "America/Chicago");
            ("weather_preference", JStr "likes the heat");
            ("daily_routine", JStr "early bird");
            ("local_interests", JStr "live music");
            ("season_preference", JStr "spring") ]))
    (Some "What kind of work do you do?").

(** The shape the extraction prompt asks for: an object whose
    [core_attributes] and [user_info] members, where present, are objects. *)
(** What the merge of the reply's [key] member writes, whatever the
    dictionary it is applied to: every entry of the member, or, when the
    member is rejected, the entries that come before the rejected one (none
    when the member is absent or is rejected as a whole). *)
Definition written (extracted : json) (key : string) : gmap string json :=
  (update_from ∅ extracted key).1.



Definition well_shaped (extracted : json) : bool :=
  match extracted with
  | JObj entries =>
      forallb (fun key =>
                 match obj_lookup entries key with
                 | None | Some (JObj _) => true
                 | Some _ => false
                 end) ["core_attributes"; "user_info"]
  | _ => false
  end.

(** A weather service that is not configured. *)
Definition no_weather : weather_service :=
  {| WEATHER_API_KEY := None;
     geocode := fun _ => Raise (ExternalError "geocoding unavailable");
     current_weather := fun _ _ => Raise (ExternalError "weather unavailable");
     zone_time := fun _ => None |}.

(** A weather service whose key is set and whose first request fails. *)
Definition weather_down : weather_service :=
  {| WEATHER_API_KEY := Some "k";
     geocode := fun _ => Raise (ExternalError "connection refused");
     current_weather := fun _ _ => Raise (ExternalError "connection refused");
     zone_time := fun _ => None |}.

Definition answering (svc : weather_service) (reply : result json) : extraction_io :=
  {| extraction_reply := reply;
     weather := svc;
     now_weather := "2024-05-01T08:00:00";
     now_history := "2024-05-01T08:00:01";
     now_last := "2024-05-01T08:00:02" |}.


(** A reply of the expected shape. *)
Definition austin : json :=
  JObj [ ("core_attributes", JObj [("location", JStr "Austin, Texas")]);
         ("user_info", JObj [("name", JStr "Sam")]) ].

(** A memory with two questions asked and a time of last interaction. *)
Definition seasoned : memory :=
  set_last_interaction
    (record_question
       (record_question settled_awaiting_reply "What kind of work do you do?")
       "Do you have any particular goals you're working towards?")
    (Some "2024-05-01T08:00:02").

(** A stretch of a run that neither sends the digest nor writes the memory
    file. *)
Definition quiet (t : list call) : Prop :=
  (FileWrite memory_filename ∉ t) ∧ (SmtpSend ∉ t).

(** A step that, whatever it returns, leaves the memory file alone and adds
    only quiet calls to the trace. *)
Definition steps_quietly {A} (p : prog A) : Prop :=
  ∀ s, memory_file (disk (p s).2) = memory_file (disk s)
       ∧ ∃ t, quiet t ∧ trace (p s).2 = (trace s ++ t)%list.

(** How a run of [main] can end, seen from the state [s] it started in:
    it raised before the digest was sent; the send itself raised; or the
    digest was sent, after which the outgoing message was logged and the
    memory written. *)
Inductive run_outcome (io : run_io) (s : run_state) (out : result unit * run_state) : Prop :=
| AbortedBeforeSend (e : exn) (t : list call) :
    out.1 = Raise e → quiet t →
    trace out.2 = (trace s ++ t)%list →
    memory_file (disk out.2) = memory_file (disk s) →
    run_outcome io s out
| SendFailed (e : exn) (t : list call) :
    send_outcome io = Raise e → out.1 = Raise e → quiet t →
    trace out.2 = (trace s ++ t ++ [SmtpSend])%list →
    memory_file (disk out.2) = memory_file (disk s) →
    run_outcome io s out
| Delivered (body : string) (t : list call) :
    send_outcome io = Ok tt → compose_reply io = Ok (Some body) →
    out.1 = Ok tt → quiet t →
    trace out.2
    = (trace s ++ t ++ [SmtpSend; FileWrite "chat_log.json"; FileWrite memory_filename])%list →
    is_Some (memory_file (disk out.2)) →
    run_outcome io s out.

(** A run that starts with no files and an empty trace. *)
Definition fresh_state : run_state :=
  {| disk := {| memory_file := None; chat_log_file := None |}; trace := [] |}.

(** A rendering of exceptions, for the scenarios. *)
Definition exn_name (e : exn) : string :=
  match e with
  | KeyError key => key
  | IndexError => "IndexError"
  | TypeError => "TypeError"
  | AttributeError => "AttributeError"
  | ValueError => "ValueError"
  | JSONDecodeError => "JSONDecodeError"
  | ExternalError what => what
  end.

(** An email whose summary request is refused, and one that would be
    summarised. *)
Definition unlucky_email : inbound :=
  {| subject := "ChatBot";
     body_text := "I'm in Austin, Texas";
     summary_reply := Raise (ExternalError "rate limit");
     extraction := answering no_weather (Ok austin);
     now_logged := "2024-05-01T08:00:03" |}.

Definition lucky_email : inbound :=
  {| subject := "Re: ChatBot";
     body_text := "I work as a nurse";
     summary_reply := Ok "Works as a nurse";
     extraction := answering no_weather (Ok (JObj [("user_info", JObj [("work", JStr "nurse")])]));
     now_logged := "2024-05-01T08:00:04" |}.

Definition one_article : json :=
  JObj [("articles",
         JArr [JObj [("title", JStr "Rain expected");
                     ("url", JStr "https://example.org/rain");
                     ("source", JObj [("name", JStr "Example News")])]])].

(** A day on which every service answers and [send] decides the outcome. *)
Definition a_day (emails : list inbound) (send : result unit) : run_io :=
  {| inbox := Ok emails;
     inline_reply := Ok "Thanks for writing!";
     NEWS_API_KEY := Some "k";
     news_reply := Ok one_article;
     fact_reply := Ok "Rain is wet.";
     gossip_reply := Ok "I once met a cloud.";
     compose_reply := Ok (Some "Good morning!");
     hour := 8;
     send_outcome := send;
     now_sent := "2024-05-01T08:00:05" |}.

(** ** Further scenarios, predicates and the email fetch *)

(** The questions the planner checks against [questions_asked] before it
    returns them: the location variants and the secondary-topic questions. *)
Definition checked_questions : list string :=
  (location_questions ++ basic_questions.*2)%list.

(** A secondary topic is settled when the memory has an entry for it or its
    question has been asked. *)
Definition topic_settled (m : memory) (entry : string * string) : bool :=
  dict_has (user_info m) entry.1 || set_has (questions_asked m) entry.2.

(** A memory that knows the location and nothing else. *)
Definition located : memory :=
  set_core_attributes empty_memory
    (<["location" := JStr "Austin, Texas"]> (core_attributes empty_memory)).

(** The entries a reply gives under [key], none when the member is absent or
    is not an object. *)
Definition entries_of (extracted : json) (key : string) : list (string * json) :=
  match extracted with
  | JObj top =>
      match obj_lookup top key with
      | Some (JObj entries) => entries
      | _ => []
      end
  | _ => []
  end.

(** The value a dictionary holds under [k] once [entries] have been written
    into it. *)
Definition overwritten (entries : list (string * json)) (old : json) (k : string) : json :=
  default old (obj_lookup entries k).

(** A weather service that answers both requests. *)
Definition weather_up : weather_service :=
  {| WEATHER_API_KEY := Some "k";
     geocode := fun _ => Ok (JArr [JObj [("lat", JNum 30); ("lon", JNum (-97))]]);
     current_weather := fun _ _ =>
       Ok (JObj [ ("weather", JArr [JObj [("main", JStr "Clear");
                                          ("description", JStr "clear sky")]]);
                  ("main", JObj [("temp", JNum 31); ("feels_like", JNum 33);
                                 ("humidity", JNum 40)]) ]);
     zone_time := fun _ => Some "08:00" |}.

(** A reply that gives [null] for the location. *)
Definition location_withdrawn : json :=
  JObj [ ("core_attributes", JObj [("location", JNull)]) ].

(** The entry [main] logs for an email it has summarised. *)
Definition incoming_entry (email : inbound) (summary : string) : log_data :=
  Incoming (now_logged email) (subject email) (body_text email) summary.

(** The extractor applied to each email in turn, with its summary. *)
Definition extract_all (m : memory) (processed : list (inbound * string)) : memory :=
  foldl (fun m '(email, summary) =>
           (update_memory_from_response (extraction email) m
              (Some (body_text email)) summary).1)
        m processed.

(** The calls [main] makes for the emails it processes to the end, in
    order: for each one the summary request, the calls of the extractor on
    the memory as the emails before it have left it, and the write of the
    chat log. *)
Fixpoint loop_events (m : memory) (processed : list (inbound * string)) : list call :=
  match processed with
  | [] => []
  | (email, summary) :: rest =>
      let out := update_memory_from_response (extraction email) m
                   (Some (body_text email)) summary in
      (ChatCompletion "gpt-3.5-turbo" :: out.2 ++ [FileWrite "chat_log.json"])
      ++ loop_events out.1 rest
  end%list.

(** A log file after [entries] have been logged one by one. *)
Definition append_log (log : option (list log_data)) (entries : list log_data)
  : option (list log_data) :=
  match entries with
  | [] => log
  | _ => Some (default [] log ++ entries)%list
  end.

(** The memory with the question of the digest recorded, if there is one. *)
Definition with_question (py_str : json → string) (m : memory) : memory :=
  match get_next_question py_str m with
  | Some q => record_question m q
  | None => m
  end.

(** An answer of the news service that is an error body. *)
Definition news_error_body : list (string * json) :=
  [("status", JStr "error"); ("code", JStr "apiKeyInvalid")].

(** A memory file in which a question is listed twice. *)
Definition repetitive_document : memory_document :=
  {| doc_user_info := ∅;
     doc_core_attributes := core_attributes empty_memory;
     doc_conversation_history := [];
     doc_topics_discussed := [];
     doc_questions_asked :=
       ["What kind of work do you do?"; "What kind of work do you do?"];
     doc_last_interaction := None;
     doc_weather_context := {| last_checked := JNull; conditions := JNull |};
     doc_pending_question := None |}.

(** ** Fetching the emails *)

Section Fetch.

(** [c.isspace()] for a character, as [str.split] consults it. *)
Variable isspace : ascii → bool.

(** [s.split()], with [word] the characters read since the last
    whitespace. *)
Fixpoint split_from (word : string) (s : string) : list string :=
  match s with
  | EmptyString => match word with EmptyString => [] | _ => [word] end
  | String c rest =>
      if isspace c
      then match word with
           | EmptyString => split_from "" rest
           | _ => word :: split_from "" rest
           end
      else split_from (word +:+ String c "") rest
  end.

Definition py_split (s : string) : list string := split_from "" s.

(** [" ".join(words)]. *)
Fixpoint join_spaces (words : list string) : string :=
  match words with
  | [] => ""
  | [w] => w
  | w :: rest => w +:+ " " +:+ join_spaces rest
  end.

(** [" ".join(body_text.split())], line 333. *)
Definition collapse_whitespace (body_text : string) : string :=
  join_spaces (py_split body_text).

(** One part of a message as [walk()] yields it: its content type and its
    payload, decoded to text. *)
Record message_part : Type := MessagePart {
  content_type : string;
  part_text : string
}.

(** A message as [email.message_from_bytes] returns it, as far as
    [fetch_emails] looks at it. *)
Record parsed_email : Type := ParsedEmail {
  subject_header : option string;
  is_multipart : bool;
  walk : list message_part;
  payload_text : string
}.

(** What the IMAP server answers during [fetch_emails]. *)
Record mailbox : Type := Mailbox {
  (** connecting, [login] and [select] *)
  connect : result unit;
  (** [conn.search]: the status and the message ids of [data[0].split()] *)
  search : result (string * list string);
  (** [conn.fetch(msg_id, '(RFC822)')]: the status and the parsed message *)
  fetch : string → result (string * parsed_email);
  (** [close] and [logout] *)
  disconnect : result unit
}.

(** The text of a message before its whitespace is collapsed: the
    [text/plain] parts of a multipart message one after the other, the
    payload of any other message. *)
Definition plain_text (parsed : parsed_email) : string :=
  if is_multipart parsed then
    foldl (fun body_text part =>
             if String.eqb (content_type part) "text/plain"
             then body_text +:+ part_text part
             else body_text)
          "" (walk parsed)
  else payload_text parsed.

(** The loop of [fetch_emails] over the message ids, with the pairs
    collected so far. *)
Fixpoint fetch_each (box : mailbox) (msg_ids : list string)
    (email_bodies : list (string * string)) : result (list (string * string)) :=
  match msg_ids with
  | [] => Ok email_bodies
  | msg_id :: rest =>
      '(res, parsed) ← fetch box msg_id;
      if String.eqb res "OK" then
        fetch_each box rest
          (email_bodies ++
           [(default "" (subject_header parsed),
             collapse_whitespace (plain_text parsed))])%list
      else fetch_each box rest email_bodies
  end.

Definition fetch_emails (box : mailbox) : result (list (string * string)) :=
  _ ← connect box;
  '(status, msg_ids) ← search box;
  email_bodies ←
    (if String.eqb status "OK" && match msg_ids with [] => false | _ => true end
     then fetch_each box msg_ids []
     else Ok []);
  _ ← disconnect box;
  Ok email_bodies.

(** A word of [split]: not empty, and free of whitespace. *)
Fixpoint no_space (s : string) : bool :=
  match s with
  | EmptyString => true
  | String c rest => negb (isspace c) && no_space rest
  end.

Definition is_word (w : string) : Prop := w ≠ "" ∧ no_space w = true.

(** Made of whitespace only. *)
Fixpoint all_space (s : string) : bool :=
  match s with
  | EmptyString => true
  | String c rest => isspace c && all_space rest
  end.

End Fetch.

(** [str.isspace] on the characters U+0000 to U+00FF: space, tab, line
    feed, vertical tab, form feed, carriage return, the four separators,
    next line (U+0085) and no-break space (U+00A0). *)
Definition ascii_isspace (c : ascii) : bool :=
  let n := nat_of_ascii c in
  bool_decide (n = 32 ∨ 9 ≤ n ≤ 13 ∨ 28 ≤ n ≤ 31 ∨ n = 133 ∨ n = 160)%nat.

(** A day like [a_day] on which the composer's completion comes with a
    line feed in front and a space behind. *)
Definition a_padded_day (emails : list inbound) : run_io :=
  {| inbox := Ok emails;
     inline_reply := Ok "Thanks for writing!";
     NEWS_API_KEY := Some "k";
     news_reply := Ok one_article;
     fact_reply := Ok "Rain is wet.";
     gossip_reply := Ok "I once met a cloud.";
     compose_reply := Ok (Some (String "010" "Good morning! "));
     hour := 8;
     send_outcome := Ok tt;
     now_sent := "2024-05-01T08:00:05" |}.

(** A plain message whose text is blank lines. *)
Definition blank_message : parsed_email :=
  {| subject_header := Some "ChatBot";
     is_multipart := false;
     walk := [];
     payload_text := String "010" (String " " (String "010" "")) |}.

(** A mailbox with one unread message, [blank_message]. *)
Definition one_blank_message : mailbox :=
  {| connect := Ok tt;
     search := Ok ("OK", ["1"]);
     fetch := fun _ => Ok ("OK", blank_message);
     disconnect := Ok tt |}.

(** A message in two plain parts and an HTML part. *)
Definition three_part_message : parsed_email :=
  {| subject_header := Some "ChatBot";
     is_multipart := true;
     walk := [ {| content_type := "multipart/mixed"; part_text := "" |};
               {| content_type := "text/plain"; part_text := "I'm in" |};
               {| content_type := "text/html"; part_text := "<p>I'm in Austin</p>" |};
               {| content_type := "text/plain"; part_text := "Austin" |} ];
     payload_text := "" |}.

(** * Properties *)

(** ** Question planner *)

Example planner_fresh :
  get_next_question str_of_text empty_memory = head location_questions.
Proof. vm_compute. reflexivity. Qed.

Lemma find_first {A} (P : A → bool) (before : list A) (x : A) (after : list A) :
  (∀ y, y ∈ before → P y = false) → P x = true →
  find P (before ++ x :: after) = Some x.
Proof.
  intros Hbefore Hx. induction before as [|y before IH]; simpl.
  - by rewrite Hx.
  - rewrite (Hbefore y) by left.
    apply IH. intros z Hz. apply Hbefore. by right.
Qed.

Lemma find_nowhere {A} (P : A → bool) (l : list A) :
  (∀ y, y ∈ l → P y = false) → find P l = None.
Proof.
  induction l as [|y l IH]; intros Hall; simpl; [done|].
  rewrite (Hall y) by left. apply IH. intros z Hz. apply Hall. by right.
Qed.

Lemma set_has_true (s : gset string) (x : string) : set_has s x = true ↔ x ∈ s.
Proof. unfold set_has. by rewrite bool_decide_eq_true. Qed.

Lemma set_has_false (s : gset string) (x : string) : set_has s x = false ↔ x ∉ s.
Proof. unfold set_has. by rewrite bool_decide_eq_false. Qed.

Lemma core_known_spec (m : memory) (k : string) :
  core_known m = true → k ∈ core_keys → truthy (dict_get (core_attributes m) k) = true.
Proof.
  unfold core_known. rewrite forallb_forall. intros Hall Hk.
  apply Hall. by apply list_elem_of_In.
Qed.

(** C1, as stated, fails: with a question pending and the location unknown
    the planner still returns a location question. *)
Lemma pending_question_does_not_gate_location :
  pending_question awaiting_reply = Some "What kind of work do you do?"
  ∧ get_next_question str_of_text awaiting_reply = head location_questions
  ∧ get_next_question str_of_text awaiting_reply ≠ None.
Proof. vm_compute. repeat split; congruence. Qed.

(** With every core attribute known and only the name on file, the planner
    moves on to the interests. *)
Example planner_asks_interests_after_name :
  get_next_question str_of_text
    (set_user_info (set_pending_question settled_awaiting_reply None)
       (<["name" := JStr "Sam"]> ∅))
  = Some "I'm curious about what interests you. What are some things you enjoy doing?".
Proof. vm_compute. reflexivity. Qed.

(** The pending question is read by truth value: an empty string does not
    hold the planner back either. *)
Lemma empty_pending_question_does_not_gate :
  get_next_question str_of_text (set_pending_question settled_awaiting_reply (Some ""))
  = Some "I'd love to know what you prefer to be called. What name should I use?".
Proof. vm_compute. reflexivity. Qed.

(** C1 (amended): when a non-empty question is pending and all six core
    attributes are known, [get_next_question] returns [None], whichever
    secondary topics are still missing. *)
Theorem pending_question_gates_secondary_topics (py_str : json → string) (m : memory) :
  truthy_str (pending_question m) = true →
  core_known m = true →
  get_next_question py_str m = None.
Proof.
  intros Hpending Hcore. unfold get_next_question.
  rewrite !(core_known_spec m _ Hcore) by (unfold core_keys; set_solver).
  simpl. by rewrite Hpending.
Qed.

Lemma pending_question_gates_secondary_topics_witness :
  get_next_question str_of_text settled_awaiting_reply = None.
Proof.
  apply (pending_question_gates_secondary_topics str_of_text settled_awaiting_reply);
    vm_compute; reflexivity.
Defined.

(** C2: while the location is unknown the planner returns the first of the
    five location questions that is not in [questions_asked]; when all five
    are there it returns the fallback, and keeps returning it after the
    fallback itself has been recorded as asked. *)
Theorem location_question_rotation (py_str : json → string) (m : memory) :
  truthy (dict_get (core_attributes m) "location") = false →
  length location_questions = 5
  ∧ (∀ before q after,
        location_questions = (before ++ q :: after)%list →
        (∀ x, x ∈ before → x ∈ questions_asked m) →
        q ∉ questions_asked m →
        get_next_question py_str m = Some q)
  ∧ ((∀ x, x ∈ location_questions → x ∈ questions_asked m) →
        get_next_question py_str m = Some location_fallback
        ∧ get_next_question py_str (record_question m location_fallback)
          = Some location_fallback).
Proof.
  intros Hloc. split; [reflexivity|]. split.
  - intros before q after Hsplit Hbefore Hq.
    unfold get_next_question. rewrite Hloc. simpl negb. cbv iota.
    rewrite Hsplit, find_first; [done| |].
    + intros y Hy. apply negb_false_iff, set_has_true. by apply Hbefore.
    + apply negb_true_iff, set_has_false. exact Hq.
  - intros Hall.
    assert (Hfallback : ∀ m', core_attributes m' = core_attributes m →
              questions_asked m ⊆ questions_asked m' →
              get_next_question py_str m' = Some location_fallback).
    { intros m' Hcore Hsub. unfold get_next_question.
      rewrite Hcore, Hloc. simpl negb. cbv iota.
      rewrite find_nowhere; [done|].
      intros y Hy. apply negb_false_iff, set_has_true. apply Hsub. by apply Hall. }
    split; apply Hfallback; [done|done|done|].
    simpl. set_solver.
Qed.

Lemma location_question_rotation_witness :
  get_next_question str_of_text awaiting_reply = head location_questions.
Proof.
  destruct (location_question_rotation str_of_text awaiting_reply) as (_ & Hfirst & _).
  { vm_compute. reflexivity. }
  apply (Hfirst [] _ (tail location_questions)).
  - reflexivity.
  - intros x Hx. by apply elem_of_nil in Hx.
  - apply not_elem_of_empty.
Defined.

(** ** Merging: last write wins, key by key *)

Lemma insert_union_empty (written d : gmap string json) (k : string) (v : json) :
  written ∪ <[k := v]> d = (written ∪ <[k := v]> ∅) ∪ d.
Proof.
  apply map_eq. intros i. rewrite !lookup_union.
  destruct (decide (k = i)) as [->|Hne].
  - rewrite !lookup_insert_eq. by destruct (written !! i), (d !! i).
  - rewrite !lookup_insert_ne by done. rewrite lookup_empty.
    by destruct (written !! i), (d !! i).
Qed.

(** Writing the entries of an object overwrites the keys it names and keeps
    the others. *)
Lemma write_entries_union (entries : list (string * json)) (d : gmap string json) :
  write_entries d entries = write_entries ∅ entries ∪ d.
Proof.
  revert d. induction entries as [|[k v] entries IH]; intros d.
  - unfold write_entries. simpl. by rewrite (left_id_L ∅ (∪)).
  - unfold write_entries in *. simpl.
    rewrite (IH (<[k := v]> d)), (IH (<[k := v]> ∅)).
    apply insert_union_empty.
Qed.

Lemma update_pairs_union (items : list json) (d : gmap string json) :
  update_pairs d items
  = ((update_pairs ∅ items).1 ∪ d, (update_pairs ∅ items).2).
Proof.
  revert d. induction items as [|item items IH]; intros d; simpl.
  - by rewrite (left_id_L ∅ (∪)).
  - destruct (as_pair item) as [k v| |e]; simpl.
    + rewrite (IH (<[k := v]> d)), (IH (<[k := v]> ∅)). simpl.
      by rewrite insert_union_empty.
    + apply IH.
    + by rewrite (left_id_L ∅ (∪)).
Qed.

Lemma dict_update_union (other : json) (d : gmap string json) :
  dict_update d other = ((dict_update ∅ other).1 ∪ d, (dict_update ∅ other).2).
Proof.
  destruct other as [| | |s|items|entries]; simpl;
    try by rewrite (left_id_L ∅ (∪)).
  - destruct s; simpl; by rewrite (left_id_L ∅ (∪)).
  - apply update_pairs_union.
  - by rewrite write_entries_union.
Qed.

Lemma update_from_union (extracted : json) (key : string) (d : gmap string json) :
  update_from d extracted key
  = ((update_from ∅ extracted key).1 ∪ d, (update_from ∅ extracted key).2).
Proof.
  unfold update_from.
  destruct (py_in key extracted) as [[|]|e]; simpl;
    try by rewrite (left_id_L ∅ (∪)).
  destruct (py_getitem extracted key) as [other|e]; simpl.
  - apply dict_update_union.
  - by rewrite (left_id_L ∅ (∪)).
Qed.

(** Applying the same update again changes nothing, and raises exactly when
    the first application did. *)
Lemma update_from_again (extracted : json) (key : string) (d : gmap string json) :
  update_from (update_from d extracted key).1 extracted key
  = update_from d extracted key.
Proof.
  rewrite (update_from_union extracted key d). simpl.
  rewrite (update_from_union extracted key (_ ∪ d)).
  by rewrite (assoc_L (∪)), (idemp_L (∪)).
Qed.

(** The error of an update does not depend on the dictionary it is applied
    to. *)
Lemma update_from_error (extracted : json) (key : string) (d d' : gmap string json) :
  (update_from d extracted key).2 = (update_from d' extracted key).2.
Proof.
  by rewrite (update_from_union extracted key d), (update_from_union extracted key d').
Qed.

(** C7: merging the [core_attributes] and [user_info] parts of an extraction
    result a second time leaves both dictionaries as the first merge left
    them. *)
Theorem merge_extracted_idempotent (m : memory) (extracted : json) :
  let once := (merge_extracted m extracted).1 in
  let twice := (merge_extracted once extracted).1 in
  core_attributes twice = core_attributes once
  ∧ user_info twice = user_info once.
Proof.
  unfold merge_extracted.
  destruct (update_from (core_attributes m) extracted "core_attributes")
    as [core err] eqn:Hcore.
  assert (Hagain : update_from core extracted "core_attributes" = (core, err)).
  { pose proof (update_from_again extracted "core_attributes" (core_attributes m)) as H.
    by rewrite Hcore in H. }
  destruct err as [e|]; simpl.
  - rewrite Hagain. simpl. done.
  - destruct (update_from (user_info m) extracted "user_info") as [info err] eqn:Hinfo.
    simpl. rewrite Hagain. simpl.
    pose proof (update_from_again extracted "user_info" (user_info m)) as H.
    rewrite Hinfo in H. simpl in H. rewrite H. done.
Qed.

(** A second merge of the same reply returns what the first returned. *)
Lemma merge_extracted_again (m : memory) (extracted : json) :
  merge_extracted (merge_extracted m extracted).1 extracted
  = merge_extracted m extracted.
Proof.
  unfold merge_extracted.
  pose proof (update_from_again extracted "core_attributes" (core_attributes m)) as Hcore.
  destruct (update_from (core_attributes m) extracted "core_attributes") as [core [e|]];
    simpl in *.
  - by rewrite Hcore.
  - pose proof (update_from_again extracted "user_info" (user_info m)) as Hinfo.
    destruct (update_from (user_info m) extracted "user_info") as [info err].
    simpl in *. by rewrite Hcore, Hinfo.
Qed.

(** The merge reads nothing of the memory but the two dictionaries. *)
Lemma merge_extracted_dicts (m1 m2 : memory) (extracted : json) :
  core_attributes m1 = core_attributes m2 →
  user_info m1 = user_info m2 →
  core_attributes (merge_extracted m1 extracted).1
  = core_attributes (merge_extracted m2 extracted).1
  ∧ user_info (merge_extracted m1 extracted).1
    = user_info (merge_extracted m2 extracted).1.
Proof.
  intros Hcore Hinfo. unfold merge_extracted. rewrite Hcore.
  destruct (update_from (core_attributes m2) extracted "core_attributes") as [core [e|]];
    simpl; [done|].
  rewrite Hinfo. by destruct (update_from (user_info m2) extracted "user_info").
Qed.

(** Past the guard on the email text, the extractor leaves the two
    dictionaries as the merge leaves them. *)
Lemma update_memory_from_response_dicts
    (io : extraction_io) (m : memory) (email_text : option string)
    (email_summary : string) (extracted : json) :
  truthy_str email_text = true →
  extraction_reply io = Ok extracted →
  let m' := (update_memory_from_response io m email_text email_summary).1 in
  core_attributes m' = core_attributes (merge_extracted m extracted).1
  ∧ user_info m' = user_info (merge_extracted m extracted).1.
Proof.
  intros Htext Hreply. unfold update_memory_from_response.
  rewrite Htext, Hreply. simpl negb. cbv iota.
  destruct (merge_extracted m extracted) as [merged [e|]]; [done|].
  destruct (truthy (dict_get (core_attributes merged) "location")); [|done].
  destruct (get_weather_context _ _ _) as [weather_data requests].
  by destruct (truthy weather_data).
Qed.

(** Processing the same email with the same answers a second time leaves the
    two dictionaries as the first time left them. *)
Lemma update_memory_from_response_again
    (io : extraction_io) (m : memory) (email_text : option string)
    (email_summary : string) :
  let once := (update_memory_from_response io m email_text email_summary).1 in
  let twice := (update_memory_from_response io once email_text email_summary).1 in
  core_attributes twice = core_attributes once ∧ user_info twice = user_info once.
Proof.
  cbv zeta.
  destruct (truthy_str email_text) eqn:Htext.
  2: { unfold update_memory_from_response. by rewrite Htext. }
  destruct (extraction_reply io) as [extracted|e] eqn:Hreply.
  2: { unfold update_memory_from_response. by rewrite Htext, Hreply. }
  destruct (update_memory_from_response_dicts io m email_text email_summary
              extracted Htext Hreply) as [Hcore Hinfo].
  destruct (update_memory_from_response_dicts io
              (update_memory_from_response io m email_text email_summary).1
              email_text email_summary extracted Htext Hreply) as [Hcore' Hinfo'].
  destruct (merge_extracted_dicts _ _ extracted Hcore Hinfo) as [Hc Hi].
  rewrite merge_extracted_again in Hc, Hi.
  split; congruence.
Qed.

(** ** Fact extractor *)

(** C10: with a missing or empty email text the extractor returns the memory
    it was given, every field included, and makes no call. *)
Theorem empty_email_text_is_ignored
    (io : extraction_io) (m : memory) (email_summary : string) :
  update_memory_from_response io m None email_summary = (m, [])
  ∧ update_memory_from_response io m (Some "") email_summary = (m, []).
Proof. split; reflexivity. Qed.


(** An object member is written entry by entry. *)
Lemma written_object (top : list (string * json)) (key : string)
    (entries : list (string * json)) :
  obj_lookup top key = Some (JObj entries) →
  written (JObj top) key = write_entries ∅ entries.
Proof.
  intros Hmember. unfold written, update_from. simpl.
  rewrite Hmember. by rewrite bool_decide_eq_true_2.
Qed.




(** The ways the weather lookup comes back empty-handed. *)
Lemma get_weather_context_no_key (svc : weather_service) (location timezone : json) :
  truthy_str (WEATHER_API_KEY svc) = false →
  get_weather_context svc location timezone = (JNull, []).
Proof. intros Hkey. unfold get_weather_context. by rewrite Hkey. Qed.

Lemma get_weather_context_geocode_raises
    (svc : weather_service) (location timezone : json) (e : exn) :
  geocode svc location = Raise e →
  (get_weather_context svc location timezone).1 = JNull.
Proof.
  intros Hgeo. unfold get_weather_context. rewrite Hgeo.
  by destruct (negb _ || negb _).
Qed.

Lemma get_weather_context_nothing_found
    (svc : weather_service) (location timezone : json) (geo_data : json) :
  geocode svc location = Ok geo_data → truthy geo_data = false →
  (get_weather_context svc location timezone).1 = JNull.
Proof.
  intros Hgeo Hempty. unfold get_weather_context. rewrite Hgeo, Hempty.
  by destruct (negb _ || negb _).
Qed.

Lemma get_weather_context_weather_raises (svc : weather_service) (location timezone : json) :
  (∀ lat lon, raised (current_weather svc lat lon)) →
  (get_weather_context svc location timezone).1 = JNull.
Proof.
  intros Hdown. unfold get_weather_context.
  destruct (negb _ || negb _); [done|].
  destruct (geocode svc location) as [geo_data|]; [|done].
  destruct (negb (truthy geo_data)); [done|].
  destruct (_ ≫= _) as [[lat lon]|]; [|done].
  specialize (Hdown lat lon). by destruct (current_weather svc lat lon).
Qed.

(** A report, when there is one, is a non-empty dictionary. *)
Lemma get_weather_context_report (svc : weather_service) (location timezone : json) :
  (get_weather_context svc location timezone).1 = JNull
  ∨ truthy (get_weather_context svc location timezone).1 = true.
Proof.
  unfold get_weather_context.
  destruct (negb _ || negb _); [by left|].
  destruct (geocode svc location) as [geo_data|]; [|by left].
  destruct (negb (truthy geo_data)); [by left|].
  destruct (_ ≫= _) as [[lat lon]|]; [|by left].
  destruct (current_weather svc lat lon) as [data|]; [|by left].
  destruct (weather_report _ _) as [report|] eqn:Hreport; [|by left].
  right. unfold weather_report in Hreport.
  repeat match type of Hreport with
         | (?r ≫= _) = Ok _ => destruct r; simpl in Hreport; [|discriminate]
         end.
  by injection Hreport as <-.
Qed.

(** The merge of a reply whose two members are objects: each overwrites its
    dictionary key by key. *)
Lemma merge_extracted_objects (m : memory) (core info : list (string * json)) :
  merge_extracted m (JObj [("core_attributes", JObj core); ("user_info", JObj info)])
  = (set_user_info
       (set_core_attributes m (write_entries (core_attributes m) core))
       (write_entries (user_info m) info),
     None).
Proof. reflexivity. Qed.

(** C8: when the weather lookup returns nothing while a reply is merged into
    a memory with a known location, the stored weather context stays as it
    was and the rest of the extraction goes through: both dictionaries are
    merged, the pending question is cleared, a history entry is appended and
    the time of the interaction is set. *)
Theorem weather_failure_keeps_weather_context
    (io : extraction_io) (m : memory) (email_text : option string)
    (email_summary : string) (extracted : json) (merged : memory) :
  truthy (dict_get (core_attributes m) "location") = true →
  truthy_str email_text = true →
  extraction_reply io = Ok extracted →
  merge_extracted m extracted = (merged, None) →
  (get_weather_context (weather io)
     (dict_get (core_attributes merged) "location")
     (dict_get (core_attributes merged) "timezone")).1 = JNull →
  let m' := (update_memory_from_response io m email_text email_summary).1 in
  weather_context m' = weather_context m
  ∧ core_attributes m' = core_attributes merged
  ∧ user_info m' = user_info merged
  ∧ pending_question m' = None
  ∧ conversation_history m'
    = (conversation_history m ++
       [ {| timestamp := now_history io;
            user_message := email_summary;
            extracted_info := extracted |} ])%list
  ∧ last_interaction m' = Some (now_last io)
  ∧ questions_asked m' = questions_asked m
  ∧ topics_discussed m' = topics_discussed m.
Proof.
  intros _ Htext Hreply Hmerge Hweather.
  assert (Hframe : weather_context merged = weather_context m
                   ∧ conversation_history merged = conversation_history m
                   ∧ questions_asked merged = questions_asked m
                   ∧ topics_discussed merged = topics_discussed m).
  { unfold merge_extracted in Hmerge.
    destruct (update_from (core_attributes m) _ _) as [core [e|]]; [done|].
    destruct (update_from _ _ "user_info") as [info err].
    by injection Hmerge as <- _. }
  destruct Hframe as (Hw & Hh & Hq & Ht).
  unfold update_memory_from_response.
  rewrite Htext, Hreply, Hmerge. simpl negb. cbv iota.
  destruct (truthy (dict_get (core_attributes merged) "location")).
  - destruct (get_weather_context _ _ _) as [weather_data requests].
    simpl in Hweather. subst weather_data. simpl.
    by rewrite Hw, Hh, Hq, Ht.
  - simpl. by rewrite Hw, Hh, Hq, Ht.
Qed.

Lemma weather_failure_keeps_weather_context_witness :
  let m' := (update_memory_from_response (answering weather_down (Ok austin))
               settled_awaiting_reply (Some "I'm in Austin, Texas") "Lives in Austin").1 in
  weather_context m' = weather_context settled_awaiting_reply
  ∧ pending_question m' = None
  ∧ dict_get (user_info m') "name" = JStr "Sam".
Proof.
  destruct (weather_failure_keeps_weather_context
              (answering weather_down (Ok austin)) settled_awaiting_reply
              (Some "I'm in Austin, Texas") "Lives in Austin" austin
              (merge_extracted settled_awaiting_reply austin).1)
    as (Hw & _ & Hinfo & Hpending & _).
  - vm_compute. reflexivity.
  - reflexivity.
  - reflexivity.
  - reflexivity.
  - vm_compute. reflexivity.
  - simpl. rewrite Hw, Hpending, Hinfo. repeat split.
Defined.

(** The scenario of a first run: an empty memory and one email that names
    Austin. *)
Example first_run_learns_location :
  let m' := (update_memory_from_response (answering no_weather (Ok austin))
               empty_memory (Some "I'm in Austin, Texas") "Lives in Austin").1 in
  dict_get (core_attributes m') "location" = JStr "Austin, Texas"
  ∧ pending_question m' = None
  ∧ length (conversation_history m') = 1.
Proof. vm_compute. repeat split. Qed.

(** ** Memory store *)

Section StoreProperties.

Variable list_of_set : gset string → list string.

(** [list(s)] lists the elements of [s], each once, in some order. *)
Hypothesis list_of_set_elements : ∀ s, list_of_set s ≡ₚ elements s.

Lemma set_of_list_of_set (s : gset string) : list_to_set (list_of_set s) = s.
Proof.
  apply set_eq. intros x.
  by rewrite elem_of_list_to_set, list_of_set_elements, elem_of_elements.
Qed.

(** The arrays written to the file hold no element twice. *)
Lemma saved_sets_deduplicated (m : memory) :
  NoDup (doc_questions_asked (save_memory list_of_set m))
  ∧ NoDup (doc_topics_discussed (save_memory list_of_set m)).
Proof.
  simpl. rewrite !list_of_set_elements. split; apply NoDup_elements.
Qed.

Lemma save_then_load (m : memory) :
  load_memory (Some (save_memory list_of_set m)) = m.
Proof. destruct m. simpl. by rewrite !set_of_list_of_set. Qed.

(** C6: saving a memory and loading it back gives the same two sets
    (whatever order their elements were written in), the same time of last
    interaction and the same value for every core attribute. *)
Theorem save_load_round_trip (m : memory) :
  let m' := load_memory (Some (save_memory list_of_set m)) in
  questions_asked m' = questions_asked m
  ∧ topics_discussed m' = topics_discussed m
  ∧ last_interaction m' = last_interaction m
  ∧ ∀ k, dict_get (core_attributes m') k = dict_get (core_attributes m) k.
Proof. simpl. by rewrite !set_of_list_of_set. Qed.

End StoreProperties.

Lemma save_load_round_trip_witness :
  let m' := load_memory (Some (save_memory elements seasoned)) in
  questions_asked m' = questions_asked seasoned
  ∧ topics_discussed m' = topics_discussed seasoned
  ∧ last_interaction m' = last_interaction seasoned
  ∧ ∀ k, dict_get (core_attributes m') k = dict_get (core_attributes seasoned) k.
Proof.
  apply (save_load_round_trip elements).
  intros s. reflexivity.
Defined.

(** ** News and digest *)

(** What the news fetch returns when it cannot reach the service: one item
    that carries a message for a title. *)
Lemma headlines_without_key (exn_str : exn → string) (news_reply : result json) :
  get_daily_news_headlines exn_str None news_reply
  = ([JObj [("title", JStr "No NEWS_API_KEY found. Please set it in your .env file.");
            ("url", JNull)]], []).
Proof. reflexivity. Qed.

Lemma headlines_after_failure (exn_str : exn → string) (key : string) (e : exn) :
  truthy_str (Some key) = true →
  (get_daily_news_headlines exn_str (Some key) (Raise e)).1
  = [JObj [("title", JStr ("Error fetching news: " +:+ exn_str e)); ("url", JNull)]].
Proof. intros Hkey. unfold get_daily_news_headlines. by rewrite Hkey. Qed.

(** C4: the placeholder headline has no [source], and the digest composer
    reads [news['source']] of every headline: with the placeholder list it
    raises [KeyError] before it reaches the completion call, whether the key
    was missing or the request failed. *)
Theorem placeholder_headline_breaks_digest
    (py_str : json → string) (isspace : ascii → bool) (exn_str : exn → string)
    (compose_reply : result (option string)) (news_reply : result json) (e : exn)
    (inline_response random_fact daily_gossip : string) (m : memory) :
  build_daily_email_content py_str isspace compose_reply inline_response
    (get_daily_news_headlines exn_str None news_reply).1
    random_fact m daily_gossip
  = (Raise (KeyError "source"), [])
  ∧ build_daily_email_content py_str isspace compose_reply inline_response
      (get_daily_news_headlines exn_str (Some "k") (Raise e)).1
      random_fact m daily_gossip
    = (Raise (KeyError "source"), []).
Proof. split; reflexivity. Qed.

(** A headline as the comprehension builds it goes through the composer's
    formatting. *)
Lemma format_news_of_item (py_str : json → string) (article item : json) :
  news_item article = Ok item → ∃ line, format_news py_str item = Ok line.
Proof.
  unfold news_item. intros Hitem.
  repeat match type of Hitem with
         | (?r ≫= _) = Ok _ => destruct r; simpl in Hitem; [|discriminate]
         end.
  injection Hitem as <-. eexists. reflexivity.
Qed.

(** ** The run *)

Lemma bind_run {A B} (p : prog A) (k : A → prog B) (s : run_state) :
  (p ≫= k) s = match p s with
               | (Ok a, s') => k a s'
               | (Raise e, s') => (Raise e, s')
               end.
Proof. reflexivity. Qed.

Lemma quiet_nil : quiet [].
Proof. split; apply not_elem_of_nil. Qed.

Lemma quiet_app (t1 t2 : list call) : quiet t1 → quiet t2 → quiet (t1 ++ t2).
Proof. unfold quiet. rewrite !elem_of_app. tauto. Qed.

Lemma quiet_singleton (c : call) :
  c ≠ FileWrite memory_filename → c ≠ SmtpSend → quiet [c].
Proof. unfold quiet. rewrite !list_elem_of_singleton. intros ??. split; congruence. Qed.

Lemma ret_quietly {A} (a : A) : steps_quietly (mret a : prog A).
Proof. intros s. split; [done|]. exists []. split; [apply quiet_nil|]. by rewrite app_nil_r. Qed.

Lemma lift_quietly {A} (r : result A) : steps_quietly (lift r).
Proof. intros s. split; [done|]. exists []. split; [apply quiet_nil|]. by rewrite app_nil_r. Qed.

Lemma read_memory_file_quietly : steps_quietly read_memory_file.
Proof. intros s. split; [done|]. exists []. split; [apply quiet_nil|]. by rewrite app_nil_r. Qed.

Lemma emit_quietly (cs : list call) : quiet cs → steps_quietly (emit cs).
Proof. intros Hcs s. split; [done|]. by exists cs. Qed.

Lemma external_quietly {A} (c : call) (outcome : result A) :
  c ≠ FileWrite memory_filename → c ≠ SmtpSend → steps_quietly (external c outcome).
Proof. intros ?? s. split; [done|]. exists [c]. split; [by apply quiet_singleton|done]. Qed.

Lemma log_to_json_quietly (entry : log_data) : steps_quietly (log_to_json entry).
Proof.
  intros s. split; [done|]. exists [FileWrite "chat_log.json"].
  split; [by apply quiet_singleton|done].
Qed.

Lemma bind_quietly {A B} (p : prog A) (k : A → prog B) :
  steps_quietly p → (∀ a, steps_quietly (k a)) → steps_quietly (p ≫= k).
Proof.
  intros Hp Hk s. rewrite bind_run.
  destruct (Hp s) as (Hfile & t & Ht & Htrace).
  destruct (p s) as [[a|e] s1]; simpl in *.
  - destruct (Hk a s1) as (Hfile' & t' & Ht' & Htrace').
    split; [congruence|].
    exists (t ++ t')%list. split; [by apply quiet_app|].
    by rewrite Htrace', Htrace, (assoc_L (++)).
  - split; [done|]. by exists t.
Qed.

(** The calls of the extractor and of the news fetch are quiet. *)
Lemma get_weather_context_calls (svc : weather_service) (location timezone : json) :
  quiet (get_weather_context svc location timezone).2.
Proof.
  unfold get_weather_context.
  destruct (negb _ || negb _); [apply quiet_nil|].
  destruct (geocode svc location) as [geo_data|]; [|by apply quiet_singleton].
  destruct (negb (truthy geo_data)); [by apply quiet_singleton|].
  destruct (_ ≫= _) as [[lat lon]|]; [|by apply quiet_singleton].
  assert (Hboth : quiet [HttpGet geo_url; HttpGet weather_url])
    by (apply (quiet_app [_] [_]); by apply quiet_singleton).
  destruct (current_weather svc lat lon) as [data|]; [|exact Hboth].
  by destruct (weather_report _ _).
Qed.

Lemma update_memory_from_response_calls
    (io : extraction_io) (m : memory) (email_text : option string) (email_summary : string) :
  quiet (update_memory_from_response io m email_text email_summary).2.
Proof.
  unfold update_memory_from_response.
  destruct (negb (truthy_str email_text)); [apply quiet_nil|].
  destruct (extraction_reply io) as [extracted|]; [|by apply quiet_singleton].
  destruct (merge_extracted m extracted) as [merged [|]]; [by apply quiet_singleton|].
  destruct (truthy _); [|by apply quiet_singleton].
  pose proof (get_weather_context_calls (weather io)
                (dict_get (core_attributes merged) "location")
                (dict_get (core_attributes merged) "timezone")) as Hcalls.
  destruct (get_weather_context _ _ _) as [weather_data requests].
  destruct (truthy weather_data); simpl;
    (apply (quiet_app [_]); [by apply quiet_singleton|exact Hcalls]).
Qed.

Lemma get_daily_news_headlines_calls
    (exn_str : exn → string) (key : option string) (news_reply : result json) :
  quiet (get_daily_news_headlines exn_str key news_reply).2.
Proof.
  unfold get_daily_news_headlines.
  destruct (negb (truthy_str key)); [apply quiet_nil|].
  destruct (_ ≫= _); by apply quiet_singleton.
Qed.

Lemma build_daily_email_content_calls
    (py_str : json → string) (isspace : ascii → bool)
    (compose_reply : result (option string))
    (inline_response : string) (news_list : list json) (random_fact : string)
    (m : memory) (daily_gossip : string) :
  quiet (build_daily_email_content py_str isspace compose_reply inline_response news_list
           random_fact m daily_gossip).2.
Proof.
  unfold build_daily_email_content.
  destruct (mapM _ news_list); [|apply quiet_nil].
  destruct compose_reply as [[body|]|]; by apply quiet_singleton.
Qed.

(** The composer returns only when the completion call returned a content,
    and it returns that content stripped. *)
Lemma build_daily_email_content_returns
    (py_str : json → string) (isspace : ascii → bool)
    (compose_reply : result (option string))
    (inline_response : string) (news_list : list json) (random_fact : string)
    (m : memory) (daily_gossip : string) (body : string) (m' : memory) :
  (build_daily_email_content py_str isspace compose_reply inline_response news_list
     random_fact m daily_gossip).1 = Ok (body, m') →
  ∃ content, compose_reply = Ok (Some content) ∧ body = py_strip isspace content.
Proof.
  unfold build_daily_email_content.
  destruct (mapM _ news_list); [|done].
  destruct compose_reply as [[content|]|]; simpl; [|done..].
  intros [= <- _]. by exists content.
Qed.

Lemma run_outcome_after_quiet {A} (io : run_io) (p : prog A) (k : A → prog unit) :
  steps_quietly p →
  (∀ a s, run_outcome io s (k a s)) →
  ∀ s, run_outcome io s ((p ≫= k) s).
Proof.
  intros Hp Hk s. rewrite bind_run.
  destruct (Hp s) as (Hfile & t0 & Ht0 & Htrace0).
  destruct (p s) as [[a|e] s1]; simpl in *.
  - destruct (Hk a s1) as [e t He Ht Htrace Hkeep
                          |e t Hsend He Ht Htrace Hkeep
                          |body t Hsend Hbody Hok Ht Htrace Hsaved].
    + apply (AbortedBeforeSend _ _ _ e (t0 ++ t)); [done|by apply quiet_app| |congruence].
      by rewrite Htrace, Htrace0, (assoc_L (++)).
    + apply (SendFailed _ _ _ e (t0 ++ t)); [done|done|by apply quiet_app| |congruence].
      by rewrite Htrace, Htrace0, !(assoc_L (++)).
    + apply (Delivered _ _ _ body (t0 ++ t)); [done|done|done|by apply quiet_app| |done].
      by rewrite Htrace, Htrace0, !(assoc_L (++)).
  - by apply (AbortedBeforeSend _ _ _ e t0).
Qed.

Lemma deliver_outcome (io : run_io) (entry : log_data) (doc : memory_document)
    (body : string) (s : run_state) :
  compose_reply io = Ok (Some body) →
  run_outcome io s
    ((external SmtpSend (send_outcome io) ≫= fun _ =>
      log_to_json entry ≫= fun _ => write_memory_file doc) s).
Proof.
  intros Hbody. rewrite bind_run. unfold external.
  destruct (send_outcome io) as [[]|e] eqn:Hsend.
  - apply (Delivered _ _ _ body []); simpl; try done.
    + apply quiet_nil.
    + by rewrite <- !(assoc_L (++)).
  - apply (SendFailed _ _ _ e []); simpl; try done. apply quiet_nil.
Qed.

Section RunProperties.

Variable py_str : json → string.
Variable exn_str : exn → string.
Variable list_of_set : gset string → list string.
Variable isspace : ascii → bool.

Lemma process_emails_quietly (emails : list inbound) (m : memory) (sums : list string) :
  steps_quietly (process_emails emails m sums).
Proof.
  revert m sums. induction emails as [|email rest IH]; intros m sums; simpl.
  - apply ret_quietly.
  - apply bind_quietly; [by apply external_quietly|]. intros summary.
    pose proof (update_memory_from_response_calls (extraction email) m
                  (Some (body_text email)) summary) as Hcalls.
    destruct (update_memory_from_response _ _ _ _) as [m' calls].
    apply bind_quietly; [by apply emit_quietly|]. intros _.
    apply bind_quietly; [apply log_to_json_quietly|]. intros _.
    apply IH.
Qed.

(** Every run of [main] ends in one of the three ways of [run_outcome]. *)
Lemma main_outcome (io : run_io) (s : run_state) :
  run_outcome io s (main py_str exn_str list_of_set isspace io s).
Proof.
  unfold main. revert s.
  apply run_outcome_after_quiet; [apply read_memory_file_quietly|]. intros m.
  apply run_outcome_after_quiet; [by apply external_quietly|]. intros emails.
  apply run_outcome_after_quiet; [apply process_emails_quietly|]. intros [m' sums].
  apply run_outcome_after_quiet.
  { destruct sums; [apply ret_quietly|by apply external_quietly]. }
  intros inline_response.
  pose proof (get_daily_news_headlines_calls exn_str (NEWS_API_KEY io) (news_reply io))
    as Hnews.
  destruct (get_daily_news_headlines _ _ _) as [news_list calls].
  apply run_outcome_after_quiet; [by apply emit_quietly|]. intros _.
  apply run_outcome_after_quiet; [by apply external_quietly|]. intros random_fact.
  apply run_outcome_after_quiet; [apply lift_quietly|]. intros titles.
  apply run_outcome_after_quiet; [by apply external_quietly|]. intros daily_gossip.
  pose proof (build_daily_email_content_calls py_str isspace (compose_reply io)
                inline_response news_list random_fact m' daily_gossip) as Hbuild.
  pose proof (build_daily_email_content_returns py_str isspace (compose_reply io)
                inline_response news_list random_fact m' daily_gossip) as Hreturns.
  destruct (build_daily_email_content _ _ _ _ _ _ _ _) as [built calls'].
  apply run_outcome_after_quiet; [by apply emit_quietly|]. intros _ s.
  rewrite bind_run. unfold lift.
  destruct built as [[body m'']|e].
  - destruct (Hreturns body m'' eq_refl) as (content & Hcontent & _).
    by apply deliver_outcome with (body := content).
  - apply (AbortedBeforeSend _ _ _ e []); simpl; try done.
    + apply quiet_nil.
    + by rewrite app_nil_r.
Qed.

End RunProperties.

Lemma append_log_step (log : option (list log_data)) (entry : log_data)
    (entries : list log_data) :
  append_log (Some (default [] log ++ [entry])%list) entries
  = append_log log (entry :: entries).
Proof.
  destruct entries as [|next entries]; simpl; [done|].
  by rewrite <- (assoc_L (++)).
Qed.

Section RunTheorems.

Variable py_str : json → string.
Variable exn_str : exn → string.
Variable list_of_set : gset string → list string.
Variable isspace : ascii → bool.

(** C9: a run that raises leaves the memory file as it found it, and a
    failing composition call or a failing send makes the run raise; in the
    calls of a run, the write of the memory file comes only after the
    send, and only when the send returned. *)
Theorem memory_saved_only_after_send (io : run_io) (s : run_state) :
  let out := main py_str exn_str list_of_set isspace io s in
  let events := drop (length (trace s)) (trace out.2) in
  (raised (compose_reply io) ∨ raised (send_outcome io) → raised out.1)
  ∧ (raised out.1 →
     memory_file (disk out.2) = memory_file (disk s)
     ∧ FileWrite memory_filename ∉ events)
  ∧ (∀ before after,
       events = (before ++ FileWrite memory_filename :: after)%list →
       send_outcome io = Ok tt ∧ SmtpSend ∈ before).
Proof.
  cbv zeta.
  pose proof (main_outcome py_str exn_str list_of_set isspace io s) as Hout.
  destruct (main py_str exn_str list_of_set isspace io s) as [r s'].
  destruct Hout
    as [e t He [Hfw Hsmtp] Htrace Hkeep
       |e t Hsend He [Hfw Hsmtp] Htrace Hkeep
       |body t Hsend Hbody Hok [Hfw Hsmtp] Htrace Hsaved];
    simpl in *; rewrite Htrace, drop_app_length.
  - rewrite He. split; [done|]. split; [done|].
    intros before after ->. exfalso. apply Hfw. set_solver.
  - rewrite He. split; [done|]. split.
    + intros _. split; [done|]. rewrite elem_of_app, list_elem_of_singleton.
      intros [?|?]; [done|discriminate].
    + intros before after Heq. exfalso.
      assert (Hin : FileWrite memory_filename ∈ (t ++ [SmtpSend])%list)
        by (rewrite Heq; set_solver).
      rewrite elem_of_app, list_elem_of_singleton in Hin.
      destruct Hin; [done|discriminate].
  - rewrite Hok, Hsend, Hbody. split; [intros [[]|[]]|]. split; [intros []|].
    intros before after Heq. split; [done|].
    change (t ++ [SmtpSend; FileWrite "chat_log.json"; FileWrite memory_filename])%list
      with (t ++ [SmtpSend; FileWrite "chat_log.json"] ++ [FileWrite memory_filename])%list
      in Heq.
    rewrite (assoc_L (++)) in Heq.
    apply app_eq_inv in Heq as [(k & Hk & Hrest)|(k & -> & _)].
    + destruct k as [|c k].
      * rewrite app_nil_r in Hk. subst before. set_solver.
      * injection Hrest as <- _. exfalso.
        assert (Hin : FileWrite memory_filename
                      ∈ (t ++ [SmtpSend; FileWrite "chat_log.json"])%list)
          by (rewrite Hk; set_solver).
        rewrite elem_of_app in Hin. destruct Hin as [?|Hin]; [done|].
        rewrite !elem_of_cons in Hin.
        destruct Hin as [?|[?|Hin]]; [discriminate|discriminate|].
        by apply elem_of_nil in Hin.
    + set_solver.
Qed.

(** The loop stops at the first email whose summary raises: the emails
    before it have been logged, no other. *)
Lemma process_emails_stops
    (before : list inbound) (email : inbound) (after : list inbound) (e : exn)
    (m : memory) (sums : list string) (s : run_state) :
  Forall (fun x => ¬ raised (summary_reply x)) before →
  summary_reply email = Raise e →
  let out := process_emails (before ++ email :: after) m sums s in
  out.1 = Raise e
  ∧ length (default [] (chat_log_file (disk out.2)))
    = length (default [] (chat_log_file (disk s))) + length before.
Proof.
  intros Hbefore Hemail. revert m sums s.
  induction Hbefore as [|x before Hx _ IH]; intros m sums s; simpl.
  - rewrite bind_run. unfold external. rewrite Hemail. simpl. split; [done|lia].
  - rewrite bind_run. unfold external.
    destruct (summary_reply x) as [summary|]; [|by destruct Hx].
    destruct (update_memory_from_response _ _ _ _) as [m' calls].
    repeat (rewrite bind_run; simpl).
    match goal with
    | |- context [process_emails _ ?m1 ?sums1 ?s1] =>
        destruct (IH m1 sums1 s1) as [-> ->]
    end.
    split; [done|]. simpl. rewrite length_app. simpl. lia.
Qed.

(** The loop, when the summary of an email raises: the emails before it
    have gone through the summary, the extractor and the log, one after the
    other, and the failing request is the last call. *)
Lemma process_emails_raises
    (before : list inbound) (email : inbound) (after : list inbound) (e : exn)
    (m : memory) (sums : list string) (s : run_state) :
  Forall (fun x => ¬ raised (summary_reply x)) before →
  summary_reply email = Raise e →
  let out := process_emails (before ++ email :: after) m sums s in
  ∃ summaries,
    Forall2 (fun x summary => summary_reply x = Ok summary) before summaries
    ∧ chat_log_file (disk out.2)
      = append_log (chat_log_file (disk s)) (zip_with incoming_entry before summaries)
    ∧ trace out.2
      = (trace s ++ loop_events m (zip before summaries)
         ++ [ChatCompletion "gpt-3.5-turbo"])%list.
Proof.
  intros Hbefore Hemail. revert m sums s.
  induction Hbefore as [|x before Hx _ IH]; intros m sums s; simpl.
  - rewrite bind_run. unfold external. rewrite Hemail. simpl.
    exists []. by split; [constructor|].
  - rewrite bind_run. unfold external.
    destruct (summary_reply x) as [summary|] eqn:Hsummary; [|by destruct Hx].
    destruct (update_memory_from_response _ _ _ _) as [m' calls] eqn:Hupdate.
    repeat (rewrite bind_run; simpl).
    match goal with
    | |- context [process_emails _ ?m1 ?sums1 ?s1] =>
        destruct (IH m1 sums1 s1) as (summaries & Hall & Hlog & Htrace)
    end.
    exists (summary :: summaries). simpl in *.
    split; [by constructor|]. split.
    + rewrite Hlog. apply append_log_step.
    + rewrite Htrace, Hupdate. simpl. by rewrite <- !(assoc_L (++)).
Qed.

(** C5 (amended): when the summary of one email raises, [main] raises that
    exception.  The emails before it have been summarised, taken through
    the extractor (each on the memory as the emails before it left it) and
    logged with their summaries: the chat log holds one entry for each of
    them, after the entries it had, and the calls of the run are the
    fetch, the calls made for those emails, and the request that failed.
    The remaining emails cause no call and no log entry, no digest is sent
    and the memory file is not written. *)
Theorem summarization_failure_aborts_run
    (io : run_io) (s : run_state)
    (before : list inbound) (email : inbound) (after : list inbound) (e : exn) :
  inbox io = Ok (before ++ email :: after)%list →
  Forall (fun x => ¬ raised (summary_reply x)) before →
  summary_reply email = Raise e →
  let out := main py_str exn_str list_of_set isspace io s in
  out.1 = Raise e
  ∧ length (default [] (chat_log_file (disk out.2)))
    = length (default [] (chat_log_file (disk s))) + length before
  ∧ memory_file (disk out.2) = memory_file (disk s)
  ∧ (SmtpSend ∉ drop (length (trace s)) (trace out.2))
  ∧ (∃ summaries,
        Forall2 (fun x summary => summary_reply x = Ok summary) before summaries
        ∧ chat_log_file (disk out.2)
          = append_log (chat_log_file (disk s))
              (zip_with incoming_entry before summaries)
        ∧ drop (length (trace s)) (trace out.2)
          = (ImapFetch
             :: loop_events (load_memory (memory_file (disk s))) (zip before summaries)
             ++ [ChatCompletion "gpt-3.5-turbo"])%list).
Proof.
  intros Hinbox Hbefore Hemail out. subst out. unfold main.
  rewrite bind_run. simpl. rewrite bind_run. unfold external. rewrite Hinbox.
  rewrite bind_run.
  match goal with
  | |- context [process_emails _ ?m1 ?sums1 ?s1] =>
      pose proof (process_emails_stops before email after e m1 sums1 s1
                    Hbefore Hemail) as [Hraise Hlog];
      pose proof (process_emails_raises before email after e m1 sums1 s1
                    Hbefore Hemail) as (summaries & Hall & Hentries & Hcalls);
      destruct (process_emails_quietly (before ++ email :: after) m1 sums1 s1)
        as (Hfile & t & [_ Hsmtp] & Htrace);
      destruct (process_emails (before ++ email :: after) m1 sums1 s1)
        as [[?|e'] s2]
  end; simpl in *; [discriminate|].
  injection Hraise as ->.
  split; [done|]. split; [done|]. split; [done|]. split.
  - rewrite Htrace, <- (assoc_L (++)), drop_app_length.
    rewrite elem_of_app, list_elem_of_singleton. intros [?|?]; [discriminate|done].
  - exists summaries. split; [done|]. split; [done|].
    by rewrite Hcalls, <- (assoc_L (++)), drop_app_length.
Qed.

End RunTheorems.

(** C5, as stated, fails: the summary of the first of two emails raises, and
    the run ends there; the second email, whose summary would have been
    returned, is neither summarised nor logged. *)
Lemma summarization_failure_stops_processing :
  let out := main str_of_text exn_name elements ascii_isspace
               (a_day [unlucky_email; lucky_email] (Ok tt)) fresh_state in
  summary_reply lucky_email = Ok "Works as a nurse"
  ∧ out.1 = Raise (ExternalError "rate limit")
  ∧ chat_log_file (disk out.2) = None
  ∧ trace out.2 = [ImapFetch; ChatCompletion "gpt-3.5-turbo"].
Proof. vm_compute. repeat split. Qed.

Lemma summarization_failure_aborts_run_witness :
  (main str_of_text exn_name elements ascii_isspace
     (a_day [lucky_email; unlucky_email; lucky_email] (Ok tt)) fresh_state).1
  = Raise (ExternalError "rate limit").
Proof.
  apply (summarization_failure_aborts_run str_of_text exn_name elements ascii_isspace
           (a_day [lucky_email; unlucky_email; lucky_email] (Ok tt)) fresh_state
           [lucky_email] unlucky_email [lucky_email]).
  - reflexivity.
  - repeat constructor. simpl. tauto.
  - reflexivity.
Defined.

Lemma memory_saved_only_after_send_witness :
  let out := main str_of_text exn_name elements ascii_isspace
               (a_day [lucky_email] (Raise (ExternalError "smtp down"))) fresh_state in
  raised out.1 ∧ memory_file (disk out.2) = None.
Proof.
  destruct (memory_saved_only_after_send str_of_text exn_name elements ascii_isspace
              (a_day [lucky_email] (Raise (ExternalError "smtp down"))) fresh_state)
    as (Hraises & Hkeeps & _).
  simpl. split.
  - apply Hraises. right. exact I.
  - apply Hkeeps. apply Hraises. right. exact I.
Defined.

(** A day on which everything works ends with the memory on disk. *)
Example a_good_day :
  let out := main str_of_text exn_name elements ascii_isspace (a_day [lucky_email] (Ok tt)) fresh_state in
  out.1 = Ok tt
  ∧ (load_memory (memory_file (disk out.2))).(pending_question)
    = head location_questions
  ∧ trace out.2
    = [ ImapFetch; ChatCompletion "gpt-3.5-turbo"; ChatCompletion "gpt-3.5-turbo";
        FileWrite "chat_log.json"; ChatCompletion "gpt-3.5-turbo";
        HttpGet "https://newsapi.org/v2/top-headlines";
        ChatCompletion "gpt-3.5-turbo"; ChatCompletion "gpt-3.5-turbo";
        ChatCompletion "gpt-4o-mini-2024-07-18"; SmtpSend;
        FileWrite "chat_log.json"; FileWrite "chatbot_memory.json" ].
Proof. vm_compute. repeat split. Qed.

(** Without a news key the run raises in the composer, before anything is
    sent. *)
Example a_day_without_news_key :
  let io := a_day [] (Ok tt) in
  let out := main str_of_text exn_name elements ascii_isspace
               {| inbox := inbox io; inline_reply := inline_reply io;
                  NEWS_API_KEY := None; news_reply := news_reply io;
                  fact_reply := fact_reply io; gossip_reply := gossip_reply io;
                  compose_reply := compose_reply io; hour := hour io;
                  send_outcome := send_outcome io; now_sent := now_sent io |}
               fresh_state in
  out.1 = Raise (KeyError "source")
  ∧ (SmtpSend ∉ trace out.2)
  ∧ memory_file (disk out.2) = None.
Proof.
  vm_compute. repeat split. intros Hin.
  repeat (apply elem_of_cons in Hin as [?|Hin]; [discriminate|]).
  by apply elem_of_nil in Hin.
Qed.

(** * Further properties *)

(** ** Question planner, continued *)

Lemma find_found {A} (P : A → bool) (l : list A) (x : A) :
  find P l = Some x → x ∈ l ∧ P x = true.
Proof.
  induction l as [|y l IH]; simpl; [done|].
  destruct (P y) eqn:Hy.
  - intros [= ->]. split; [by left|done].
  - intros Hfind. destruct (IH Hfind). split; [by right|done].
Qed.

Lemma find_nowhere_inv {A} (P : A → bool) (l : list A) :
  find P l = None → ∀ y, y ∈ l → P y = false.
Proof.
  induction l as [|x l IH]; simpl; intros Hfind y Hy.
  - by apply elem_of_nil in Hy.
  - destruct (P x) eqn:Hx; [done|].
    apply elem_of_cons in Hy as [->|Hy]; [done|by apply IH].
Qed.

(** What [get_next_question] returns, branch by branch: a question it has
    checked against [questions_asked], or one of the five it returns
    unchecked. *)
Lemma get_next_question_cases (py_str : json → string) (m : memory) (q : string) :
  get_next_question py_str m = Some q →
  (q ∈ checked_questions ∧ q ∉ questions_asked m)
  ∨ q = location_fallback
  ∨ q = "To help me time these emails better, could you let me know what timezone you're in?"
  ∨ (∃ place, q = "How do you typically feel about the weather in " +:+ place
                   +:+ "? Any favorite conditions?")
  ∨ q = "Are you more of an early bird or a night owl? I want to make sure I'm catching you at a good time!"
  ∨ (∃ place, q = "What kind of local activities or spots do you enjoy in " +:+ place +:+ "?")
  ∨ (∃ place, q = "With the weather patterns in " +:+ place
                   +:+ ", do you have a favorite season? What makes it special?").
Proof.
  unfold get_next_question, checked_questions.
  destruct (negb (truthy (dict_get (core_attributes m) "location"))).
  { destruct (find _ location_questions) as [x|] eqn:Hfind.
    - intros [= <-]. apply find_found in Hfind as [Hin Hnew].
      left. split; [apply elem_of_app; by left|].
      by apply negb_true_iff, set_has_false in Hnew.
    - intros [= <-]. right. by left. }
  destruct (negb (truthy (dict_get (core_attributes m) "timezone"))).
  { intros [= <-]. do 2 right. by left. }
  destruct (negb (truthy (dict_get (core_attributes m) "weather_preference"))).
  { intros [= <-]. do 3 right. left. by eexists. }
  destruct (negb (truthy (dict_get (core_attributes m) "daily_routine"))).
  { intros [= <-]. do 4 right. by left. }
  destruct (negb (truthy (dict_get (core_attributes m) "local_interests"))).
  { intros [= <-]. do 5 right. left. by eexists. }
  destruct (negb (truthy (dict_get (core_attributes m) "season_preference"))).
  { intros [= <-]. do 6 right. by eexists. }
  destruct (truthy_str (pending_question m)); [done|].
  destruct (find _ basic_questions) as [[topic x]|] eqn:Hfind; [|done].
  intros [= <-]. apply find_found in Hfind as [Hin Hnew].
  apply andb_true_iff in Hnew as [_ Hnew].
  left. split.
  - apply elem_of_app. right. apply list_elem_of_fmap. by exists (topic, x).
  - by apply negb_true_iff, set_has_false in Hnew.
Qed.

(** X1: the planner never returns a location variant or a secondary-topic
    question that is already in [questions_asked], whatever else the memory
    holds. *)
Theorem planner_never_repeats_checked_question
    (py_str : json → string) (m : memory) (q : string) :
  q ∈ checked_questions →
  q ∈ questions_asked m →
  get_next_question py_str m ≠ Some q.
Proof.
  intros Hchecked Hasked Hnext.
  apply get_next_question_cases in Hnext
    as [[_ Hnew]|[->|[->|[[place ->]|[->|[[place ->]|[place ->]]]]]]]; [done|..];
    unfold checked_questions in Hchecked; simpl in Hchecked;
    repeat (apply elem_of_cons in Hchecked as [Heq|Hchecked]; [discriminate Heq|]);
    by apply elem_of_nil in Hchecked.
Qed.

Lemma planner_never_repeats_checked_question_witness :
  get_next_question str_of_text
    (record_question empty_memory
       "I'd love to know what city/area you live in! It would help me share more relevant updates and chat about local happenings.")
  ≠ Some "I'd love to know what city/area you live in! It would help me share more relevant updates and chat about local happenings.".
Proof.
  apply planner_never_repeats_checked_question.
  - unfold checked_questions. apply elem_of_app. left. by left.
  - simpl. apply elem_of_union. left. by apply elem_of_singleton.
Defined.

Lemma core_known_unfold (m : memory) :
  core_known m
  = truthy (dict_get (core_attributes m) "location")
    && (truthy (dict_get (core_attributes m) "timezone")
    && (truthy (dict_get (core_attributes m) "weather_preference")
    && (truthy (dict_get (core_attributes m) "daily_routine")
    && (truthy (dict_get (core_attributes m) "local_interests")
    && (truthy (dict_get (core_attributes m) "season_preference") && true))))).
Proof. reflexivity. Qed.

(** X2: the planner is silent exactly when all six core attributes are known
    and either a question is pending or every secondary topic is settled
    (already on file, or already asked about). *)
Theorem planner_silent_iff (py_str : json → string) (m : memory) :
  get_next_question py_str m = None
  ↔ core_known m = true
    ∧ (truthy_str (pending_question m) = true
       ∨ forallb (topic_settled m) basic_questions = true).
Proof.
  rewrite core_known_unfold. unfold get_next_question.
  destruct (truthy (dict_get (core_attributes m) "location")); cbn [negb andb].
  2: { split; [|intros [[=] _]]. by destruct (find _ location_questions). }
  destruct (truthy (dict_get (core_attributes m) "timezone")); cbn [negb andb].
  2: { split; [done|by intros [[=] _]]. }
  destruct (truthy (dict_get (core_attributes m) "weather_preference")); cbn [negb andb].
  2: { split; [done|by intros [[=] _]]. }
  destruct (truthy (dict_get (core_attributes m) "daily_routine")); cbn [negb andb].
  2: { split; [done|by intros [[=] _]]. }
  destruct (truthy (dict_get (core_attributes m) "local_interests")); cbn [negb andb].
  2: { split; [done|by intros [[=] _]]. }
  destruct (truthy (dict_get (core_attributes m) "season_preference")); cbn [negb andb].
  2: { split; [done|by intros [[=] _]]. }
  destruct (truthy_str (pending_question m)).
  { split; [by auto|done]. }
  split.
  - intros Hnone. split; [done|]. right.
    destruct (find _ basic_questions) as [entry|] eqn:Hfind; [done|].
    apply forallb_forall. intros [topic question] Hin.
    apply list_elem_of_In in Hin.
    pose proof (find_nowhere_inv _ _ Hfind _ Hin) as Hsettled. simpl in Hsettled.
    unfold topic_settled. simpl.
    destruct (dict_has (user_info m) topic), (set_has (questions_asked m) question);
      done.
  - intros [_ [[=]|Hall]].
    rewrite find_nowhere; [done|].
    intros [topic question] Hin. apply list_elem_of_In in Hin.
    rewrite forallb_forall in Hall. specialize (Hall _ Hin).
    unfold topic_settled in Hall. simpl in Hall.
    destruct (dict_has (user_info m) topic), (set_has (questions_asked m) question);
      done.
Qed.

(** X3: once the location is known and while another core attribute is
    missing, the planner does not look at [questions_asked] or
    [pending_question]: it returns a question, and recording any question as
    asked and pending leaves its answer the same. *)
Theorem planner_repeats_core_question
    (py_str : json → string) (m : memory) (recorded : string) :
  truthy (dict_get (core_attributes m) "location") = true →
  core_known m = false →
  is_Some (get_next_question py_str m)
  ∧ get_next_question py_str (record_question m recorded) = get_next_question py_str m.
Proof.
  rewrite core_known_unfold. intros Hloc Hmissing.
  unfold get_next_question. simpl core_attributes. rewrite Hloc in *. cbn [negb andb] in *.
  destruct (truthy (dict_get (core_attributes m) "timezone")); cbn [negb andb] in *; [|by eauto].
  destruct (truthy (dict_get (core_attributes m) "weather_preference"));
    cbn [negb andb] in *; [|by eauto].
  destruct (truthy (dict_get (core_attributes m) "daily_routine")); cbn [negb andb] in *; [|by eauto].
  destruct (truthy (dict_get (core_attributes m) "local_interests"));
    cbn [negb andb] in *; [|by eauto].
  destruct (truthy (dict_get (core_attributes m) "season_preference"));
    cbn [negb andb] in *; [done|by eauto].
Qed.

Lemma planner_repeats_core_question_witness :
  get_next_question str_of_text
    (record_question located
       "To help me time these emails better, could you let me know what timezone you're in?")
  = get_next_question str_of_text located.
Proof.
  apply (planner_repeats_core_question str_of_text located); vm_compute; reflexivity.
Defined.

(** A question the planner returns is never the empty string, so the
    composer's [if next_question:] holds for every question. *)
Lemma get_next_question_nonempty (py_str : json → string) (m : memory) (q : string) :
  get_next_question py_str m = Some q → truthy_str (Some q) = true.
Proof.
  intros Hnext.
  apply get_next_question_cases in Hnext
    as [[Hchecked _]|[->|[->|[[place ->]|[->|[[place ->]|[place ->]]]]]]]; try done.
  unfold checked_questions in Hchecked; simpl in Hchecked.
  repeat (apply elem_of_cons in Hchecked as [->|Hchecked]; [done|]).
  by apply elem_of_nil in Hchecked.
Qed.

(** ** Digest composer, continued *)

(** The memory the composer returns. *)
Lemma digest_question_recorded
    (py_str : json → string) (isspace : ascii → bool)
    (compose_reply : result (option string))
    (inline_response : string) (news_list : list json) (random_fact : string)
    (m : memory) (daily_gossip : string) (body : string) (m' : memory) :
  (build_daily_email_content py_str isspace compose_reply inline_response news_list
     random_fact m daily_gossip).1 = Ok (body, m') →
  m' = with_question py_str m.
Proof.
  unfold build_daily_email_content, with_question.
  destruct (mapM _ news_list); [|done].
  destruct compose_reply as [[content|]|]; [|done|done].
  pose proof (get_next_question_nonempty py_str m) as Hnonempty.
  destruct (get_next_question py_str m) as [q|].
  - rewrite (Hnonempty q eq_refl). by intros [= _ <-].
  - by intros [= _ <-].
Qed.

(** X4: when [build_daily_email_content] returns, it has changed the memory
    in one way only: the question the planner chose, if any, is now the
    pending question and a member of [questions_asked]; with no question the
    memory is returned as it was. *)
Theorem digest_records_the_question
    (py_str : json → string) (isspace : ascii → bool)
    (compose_reply : result (option string))
    (inline_response : string) (news_list : list json) (random_fact : string)
    (m : memory) (daily_gossip : string) (body : string) (m' : memory) :
  (build_daily_email_content py_str isspace compose_reply inline_response news_list
     random_fact m daily_gossip).1 = Ok (body, m') →
  m' = match get_next_question py_str m with
       | Some q => record_question m q
       | None => m
       end
  ∧ questions_asked m ⊆ questions_asked m'
  ∧ (∀ q, get_next_question py_str m = Some q →
          pending_question m' = Some q ∧ q ∈ questions_asked m')
  ∧ user_info m' = user_info m
  ∧ core_attributes m' = core_attributes m
  ∧ conversation_history m' = conversation_history m
  ∧ last_interaction m' = last_interaction m
  ∧ weather_context m' = weather_context m
  ∧ topics_discussed m' = topics_discussed m.
Proof.
  unfold build_daily_email_content.
  destruct (mapM _ news_list); [|done].
  destruct compose_reply as [[content|]|]; [|done|done].
  pose proof (get_next_question_nonempty py_str m) as Hnonempty.
  destruct (get_next_question py_str m) as [q|].
  - rewrite (Hnonempty q eq_refl). simpl. intros [= _ <-].
    split; [done|]. split; [simpl; set_solver|].
    split; [|repeat split].
    intros ? [= <-]. simpl. split; [done|set_solver].
  - simpl. intros [= _ <-]. repeat split; done.
Qed.

Lemma digest_records_the_question_witness :
  pending_question
    (record_question empty_memory
       "I'd love to know what city/area you live in! It would help me share more relevant updates and chat about local happenings.")
  = get_next_question str_of_text empty_memory.
Proof.
  destruct (digest_records_the_question str_of_text ascii_isspace
              (Ok (Some " Good morning! "))
              "(No new emails to respond to today.)" [] "fact" empty_memory "gossip"
              "Good morning!"
              (record_question empty_memory
                 "I'd love to know what city/area you live in! It would help me share more relevant updates and chat about local happenings.")
              eq_refl) as (_ & _ & Hq & _).
  apply Hq. reflexivity.
Defined.

(** ** Fact extractor, continued *)

(** The merge touches the two dictionaries only. *)
Lemma merge_extracted_frame (m : memory) (extracted : json) :
  let merged := (merge_extracted m extracted).1 in
  conversation_history merged = conversation_history m
  ∧ topics_discussed merged = topics_discussed m
  ∧ questions_asked merged = questions_asked m
  ∧ last_interaction merged = last_interaction m
  ∧ weather_context merged = weather_context m
  ∧ pending_question merged = pending_question m.
Proof.
  unfold merge_extracted.
  destruct (update_from (core_attributes m) extracted "core_attributes") as [core [e|]];
    simpl; [done|].
  by destruct (update_from (user_info m) extracted "user_info").
Qed.

(** X5: whatever the email and whatever the answers, the extractor leaves
    [questions_asked] and [topics_discussed] as they were and never drops or
    rewrites a history entry: the history it returns is the old one, with at
    most one entry appended. *)
Theorem extraction_only_appends_history
    (io : extraction_io) (m : memory) (email_text : option string)
    (email_summary : string) :
  let m' := (update_memory_from_response io m email_text email_summary).1 in
  questions_asked m' = questions_asked m
  ∧ topics_discussed m' = topics_discussed m
  ∧ (conversation_history m' = conversation_history m
     ∨ ∃ entry, conversation_history m' = (conversation_history m ++ [entry])%list
                ∧ user_message entry = email_summary
                ∧ pending_question m' = None).
Proof.
  unfold update_memory_from_response.
  destruct (negb (truthy_str email_text)); [by auto|].
  destruct (extraction_reply io) as [extracted|]; [|by auto].
  pose proof (merge_extracted_frame m extracted) as (Hh & Ht & Hq & _).
  destruct (merge_extracted m extracted) as [merged [e|]]; simpl in *; [by auto|].
  assert (Hgoal : ∀ m1 : memory,
            conversation_history m1 = conversation_history merged →
            questions_asked m1 = questions_asked merged →
            topics_discussed m1 = topics_discussed merged →
            let m' := set_last_interaction
                        (set_conversation_history (set_pending_question m1 None)
                           (conversation_history (set_pending_question m1 None) ++
                            [ {| timestamp := now_history io;
                                 user_message := email_summary;
                                 extracted_info := extracted |} ])%list)
                        (Some (now_last io)) in
            questions_asked m' = questions_asked m
            ∧ topics_discussed m' = topics_discussed m
            ∧ (conversation_history m' = conversation_history m
               ∨ ∃ entry, conversation_history m' = (conversation_history m ++ [entry])%list
                          ∧ user_message entry = email_summary
                          ∧ pending_question m' = None)).
  { intros m1 Hh1 Hq1 Ht1. simpl. rewrite Hq1, Ht1, Hh1, Hh, Hq, Ht.
    split; [done|]. split; [done|]. right. by eexists. }
  destruct (truthy (dict_get (core_attributes merged) "location")); [|by apply Hgoal].
  destruct (get_weather_context _ _ _) as [weather_data requests].
  destruct (truthy weather_data); by apply Hgoal.
Qed.

(** Writing entries into a dictionary: a key the entries name gets the value
    of its last entry, any other key keeps its value. *)
Lemma write_entries_lookup (entries : list (string * json)) (d : gmap string json)
    (k : string) :
  dict_get (write_entries d entries) k = overwritten entries (dict_get d k) k.
Proof.
  unfold dict_get, overwritten, obj_lookup.
  rewrite (write_entries_union entries d), lookup_union.
  by destruct (write_entries ∅ entries !! k), (d !! k).
Qed.

(** A reply of the expected shape is merged without an exception. *)
Lemma merge_extracted_well_shaped (m : memory) (extracted : json) :
  well_shaped extracted = true →
  merge_extracted m extracted
  = (set_user_info
       (set_core_attributes m
          (write_entries (core_attributes m) (entries_of extracted "core_attributes")))
       (write_entries (user_info m) (entries_of extracted "user_info")),
     None).
Proof.
  destruct extracted as [| | | | |top]; try done.
  unfold well_shaped, merge_extracted, update_from, entries_of, py_in, py_getitem.
  cbn [forallb]. rewrite !andb_true_iff. intros (Hcore & Hinfo & _).
  destruct (obj_lookup top "core_attributes") as [[| | | | |core]|]; try done;
    destruct (obj_lookup top "user_info") as [[| | | | |info]|]; try done.
Qed.

(** X6: a reply of the expected shape overwrites key by key.  After the
    extraction, each of the two dictionaries holds, under every key the reply
    names, the value the reply gives (the last one, should it name the key
    twice), and under every other key the value it held before. *)
Theorem extraction_overwrites_key_by_key
    (io : extraction_io) (m : memory) (email_text : option string)
    (email_summary : string) (extracted : json) (k : string) :
  truthy_str email_text = true →
  extraction_reply io = Ok extracted →
  well_shaped extracted = true →
  let m' := (update_memory_from_response io m email_text email_summary).1 in
  dict_get (core_attributes m') k
  = overwritten (entries_of extracted "core_attributes") (dict_get (core_attributes m) k) k
  ∧ dict_get (user_info m') k
    = overwritten (entries_of extracted "user_info") (dict_get (user_info m) k) k.
Proof.
  intros Htext Hreply Hshape. cbv zeta.
  destruct (update_memory_from_response_dicts io m email_text email_summary
              extracted Htext Hreply) as [-> ->].
  rewrite (merge_extracted_well_shaped m extracted Hshape). simpl.
  by rewrite !write_entries_lookup.
Qed.

Lemma extraction_overwrites_key_by_key_witness :
  let m' := (update_memory_from_response (answering no_weather (Ok austin))
               settled_awaiting_reply (Some "I moved") "Moved").1 in
  dict_get (core_attributes m') "timezone" = JStr "America/Chicago"
  ∧ dict_get (user_info m') "name" = JStr "Sam".
Proof.
  split.
  - apply (extraction_overwrites_key_by_key (answering no_weather (Ok austin))
             settled_awaiting_reply (Some "I moved") "Moved" austin "timezone");
      reflexivity.
  - apply (extraction_overwrites_key_by_key (answering no_weather (Ok austin))
             settled_awaiting_reply (Some "I moved") "Moved" austin "name");
      reflexivity.
Defined.

(** ** Weather lookup, continued *)

Lemma weather_requests_in_order_cases
    (svc : weather_service) (location timezone : json) :
  (get_weather_context svc location timezone).2
  ∈ [ []; [HttpGet geo_url]; [HttpGet geo_url; HttpGet weather_url] ].
Proof.
  unfold get_weather_context.
  destruct (negb _ || negb _); [set_solver|].
  destruct (geocode svc location) as [geo_data|]; [|set_solver].
  destruct (negb (truthy geo_data)); [set_solver|].
  destruct (_ ≫= _) as [[lat lon]|]; [|set_solver].
  destruct (current_weather svc lat lon) as [data|]; [|set_solver].
  destruct (weather_report _ _); set_solver.
Qed.

(** X7: [get_weather_context] sends no request without a key or without a
    location, and never the weather request without the geocoding request
    before it; it returns a report only after both requests. *)
Theorem weather_requests_in_order
    (svc : weather_service) (location timezone : json) :
  let out := get_weather_context svc location timezone in
  out.2 ∈ [ []; [HttpGet geo_url]; [HttpGet geo_url; HttpGet weather_url] ]
  ∧ (truthy_str (WEATHER_API_KEY svc) = false ∨ truthy location = false → out = (JNull, []))
  ∧ (out.1 ≠ JNull → out.2 = [HttpGet geo_url; HttpGet weather_url]).
Proof.
  unfold get_weather_context.
  destruct (truthy_str (WEATHER_API_KEY svc)), (truthy location); simpl;
    try (split; [set_solver|split; [done|done]]).
  destruct (geocode svc location) as [geo_data|];
    [|split; [set_solver|split; [intros [[=]|[=]]|done]]].
  destruct (negb (truthy geo_data));
    [split; [set_solver|split; [intros [[=]|[=]]|done]]|].
  destruct (_ ≫= _) as [[lat lon]|];
    [|split; [set_solver|split; [intros [[=]|[=]]|done]]].
  destruct (current_weather svc lat lon) as [data|];
    [|split; [set_solver|split; [intros [[=]|[=]]|done]]].
  destruct (weather_report _ _);
    (split; [set_solver|split; [intros [[=]|[=]]|done]]).
Qed.

(** X8: a report is a dictionary of exactly six entries, in the order
    [condition], [description], [temp], [feels_like], [humidity],
    [local_time]; the local time is [None] unless a time zone is known and
    the zone database has it. *)
Theorem weather_report_shape
    (svc : weather_service) (location timezone : json) :
  let report := (get_weather_context svc location timezone).1 in
  report ≠ JNull →
  ∃ condition description temp feels_like humidity,
    report = JObj [ ("condition", condition); ("description", description);
                    ("temp", temp); ("feels_like", feels_like);
                    ("humidity", humidity);
                    ("local_time",
                     match (if truthy timezone then zone_time svc timezone else None) with
                     | Some t => JStr t
                     | None => JNull
                     end) ].
Proof.
  unfold get_weather_context.
  destruct (negb _ || negb _); [done|].
  destruct (geocode svc location) as [geo_data|]; [|done].
  destruct (negb (truthy geo_data)); [done|].
  destruct (_ ≫= _) as [[lat lon]|]; [|done].
  destruct (current_weather svc lat lon) as [data|]; [|done].
  destruct (weather_report _ _) as [report|] eqn:Hreport; [|done].
  intros _. simpl. unfold weather_report in Hreport.
  repeat match type of Hreport with
         | (?r ≫= _) = Ok _ => destruct r; simpl in Hreport; [|discriminate]
         end.
  injection Hreport as <-. by eexists _, _, _, _, _.
Qed.

Lemma weather_report_shape_witness :
  ∃ condition description temp feels_like humidity,
    (get_weather_context weather_up (JStr "Austin, Texas") JNull).1
    = JObj [ ("condition", condition); ("description", description);
             ("temp", temp); ("feels_like", feels_like); ("humidity", humidity);
             ("local_time", JNull) ].
Proof.
  apply (weather_report_shape weather_up (JStr "Austin, Texas") JNull).
  vm_compute. discriminate.
Defined.

(** ** Fact extractor, continued *)

(** The extractor past its guards: the reply decoded and was merged without
    an exception. *)
Lemma update_memory_from_response_merged
    (io : extraction_io) (m : memory) (email_text : option string)
    (email_summary : string) (extracted : json) (merged : memory) :
  truthy_str email_text = true →
  extraction_reply io = Ok extracted →
  merge_extracted m extracted = (merged, None) →
  let looked_up :=
    get_weather_context (weather io) (dict_get (core_attributes merged) "location")
      (dict_get (core_attributes merged) "timezone") in
  let known := truthy (dict_get (core_attributes merged) "location") in
  let m' := (update_memory_from_response io m email_text email_summary).1 in
  weather_context m'
  = (if known && truthy looked_up.1
     then {| last_checked := JStr (now_weather io); conditions := looked_up.1 |}
     else weather_context m)
  ∧ (update_memory_from_response io m email_text email_summary).2
    = (ChatCompletion "gpt-3.5-turbo" :: (if known then looked_up.2 else []))
  ∧ pending_question m' = None
  ∧ conversation_history m'
    = (conversation_history m ++
       [ {| timestamp := now_history io;
            user_message := email_summary;
            extracted_info := extracted |} ])%list
  ∧ last_interaction m' = Some (now_last io).
Proof.
  intros Htext Hreply Hmerge. cbv zeta.
  pose proof (merge_extracted_frame m extracted) as (Hh & _ & _ & _ & Hw & _).
  rewrite Hmerge in Hh, Hw. simpl in Hh, Hw.
  unfold update_memory_from_response.
  rewrite Htext, Hreply, Hmerge. cbn [negb].
  destruct (truthy (dict_get (core_attributes merged) "location")); cbn [andb].
  - destruct (get_weather_context _ _ _) as [weather_data requests].
    destruct (truthy weather_data) eqn:Hdata; simpl; rewrite ?Hdata, Hh, ?Hw;
      repeat split.
  - simpl. rewrite Hh, Hw. repeat split.
Qed.

(** X9: when the weather lookup returns a report while a reply is merged,
    the stored weather context is replaced as a whole: by the report, stamped
    with the time of the lookup. *)
Theorem weather_report_replaces_weather_context
    (io : extraction_io) (m : memory) (email_text : option string)
    (email_summary : string) (extracted : json) (merged : memory) :
  truthy_str email_text = true →
  extraction_reply io = Ok extracted →
  merge_extracted m extracted = (merged, None) →
  truthy (dict_get (core_attributes merged) "location") = true →
  let report :=
    (get_weather_context (weather io) (dict_get (core_attributes merged) "location")
       (dict_get (core_attributes merged) "timezone")).1 in
  report ≠ JNull →
  weather_context (update_memory_from_response io m email_text email_summary).1
  = {| last_checked := JStr (now_weather io); conditions := report |}.
Proof.
  intros Htext Hreply Hmerge Hknown report Hreport.
  destruct (update_memory_from_response_merged io m email_text email_summary
              extracted merged Htext Hreply Hmerge) as (-> & _).
  rewrite Hknown. cbn [andb].
  destruct (get_weather_context_report (weather io)
              (dict_get (core_attributes merged) "location")
              (dict_get (core_attributes merged) "timezone")) as [Hnull| ->];
    [by destruct Hreport|done].
Qed.

Lemma weather_report_replaces_weather_context_witness :
  last_checked
    (weather_context
       (update_memory_from_response (answering weather_up (Ok austin))
          empty_memory (Some "I'm in Austin, Texas") "Lives in Austin").1)
  = JStr "2024-05-01T08:00:00".
Proof.
  rewrite (weather_report_replaces_weather_context
             (answering weather_up (Ok austin)) empty_memory
             (Some "I'm in Austin, Texas") "Lives in Austin" austin
             (merge_extracted empty_memory austin).1);
    [reflexivity..|].
  vm_compute. discriminate.
Defined.

(** X10: the calls of the extractor.  None without an email text; otherwise
    the completion call, followed by weather requests only if the location
    is known in the memory it returns. *)
Theorem extraction_calls
    (io : extraction_io) (m : memory) (email_text : option string)
    (email_summary : string) :
  let out := update_memory_from_response io m email_text email_summary in
  (truthy_str email_text = false → out.2 = [])
  ∧ (truthy_str email_text = true →
     ∃ requests,
       out.2 = ChatCompletion "gpt-3.5-turbo" :: requests
       ∧ requests ∈ [ []; [HttpGet geo_url]; [HttpGet geo_url; HttpGet weather_url] ]
       ∧ (requests ≠ [] → truthy (dict_get (core_attributes out.1) "location") = true)).
Proof.
  cbv zeta. split.
  { intros Htext. unfold update_memory_from_response. by rewrite Htext. }
  intros Htext.
  destruct (extraction_reply io) as [extracted|e] eqn:Hreply.
  2: { unfold update_memory_from_response. rewrite Htext, Hreply. simpl.
       exists []. split; [done|]. split; [set_solver|done]. }
  destruct (merge_extracted m extracted) as [merged [e|]] eqn:Hmerge.
  { unfold update_memory_from_response. rewrite Htext, Hreply, Hmerge. simpl.
    exists []. split; [done|]. split; [set_solver|done]. }
  destruct (update_memory_from_response_merged io m email_text email_summary
              extracted merged Htext Hreply Hmerge) as (_ & -> & _).
  destruct (update_memory_from_response_dicts io m email_text email_summary
              extracted Htext Hreply) as [-> _].
  rewrite Hmerge. simpl.
  destruct (truthy (dict_get (core_attributes merged) "location")).
  - eexists. split; [done|]. split; [|done].
    apply weather_requests_in_order_cases.
  - exists []. split; [done|]. split; [set_solver|done].
Qed.

Lemma extraction_calls_witness :
  (update_memory_from_response (answering weather_up (Ok austin))
     empty_memory None "nothing").2 = [].
Proof.
  apply (extraction_calls (answering weather_up (Ok austin)) empty_memory None "nothing").
  reflexivity.
Defined.

(** X11: a reply of the expected shape that gives a falsy value for the
    location ([null], an empty string) overwrites a known location; the
    extractor then makes no weather request, and the planner goes back to
    the location questions. *)
Theorem falsy_location_reopens_the_question
    (py_str : json → string) (io : extraction_io) (m : memory)
    (email_text : option string) (email_summary : string) (extracted v : json) :
  truthy_str email_text = true →
  extraction_reply io = Ok extracted →
  well_shaped extracted = true →
  obj_lookup (entries_of extracted "core_attributes") "location" = Some v →
  truthy v = false →
  let out := update_memory_from_response io m email_text email_summary in
  dict_get (core_attributes out.1) "location" = v
  ∧ out.2 = [ChatCompletion "gpt-3.5-turbo"]
  ∧ ∃ q, get_next_question py_str out.1 = Some q
         ∧ (q ∈ location_questions ∨ q = location_fallback).
Proof.
  intros Htext Hreply Hshape Hlocation Hfalsy. cbv zeta.
  pose proof (merge_extracted_well_shaped m extracted Hshape) as Hmerge.
  destruct (update_memory_from_response_merged io m email_text email_summary
              extracted _ Htext Hreply Hmerge) as (_ & Hcalls & _).
  destruct (update_memory_from_response_dicts io m email_text email_summary
              extracted Htext Hreply) as [Hcore _].
  rewrite Hmerge in Hcore. simpl in Hcore, Hcalls.
  assert (Hv : dict_get (core_attributes
                  (update_memory_from_response io m email_text email_summary).1)
                 "location" = v).
  { rewrite Hcore, write_entries_lookup. unfold overwritten. by rewrite Hlocation. }
  rewrite write_entries_lookup in Hcalls. unfold overwritten in Hcalls.
  rewrite Hlocation in Hcalls. simpl in Hcalls. rewrite Hfalsy in Hcalls.
  split; [done|]. split; [done|].
  unfold get_next_question. rewrite Hv, Hfalsy. cbn [negb].
  destruct (find _ location_questions) as [q|] eqn:Hfind.
  - exists q. split; [done|]. left. by apply find_found in Hfind as [? _].
  - exists location_fallback. by auto.
Qed.

Lemma falsy_location_reopens_the_question_witness :
  ∃ q, get_next_question str_of_text
         (update_memory_from_response (answering weather_up (Ok location_withdrawn))
            settled_awaiting_reply (Some "never mind") "Withdraws").1 = Some q
       ∧ (q ∈ location_questions ∨ q = location_fallback).
Proof.
  apply (falsy_location_reopens_the_question str_of_text
           (answering weather_up (Ok location_withdrawn)) settled_awaiting_reply
           (Some "never mind") "Withdraws" location_withdrawn JNull);
    reflexivity.
Defined.

(** X12: a reply that decodes and has neither a [core_attributes] nor a
    [user_info] member (an empty object, but also an array or a string that
    does not hold the two names) counts as an answer: nothing is merged, the
    pending question is cleared, a history entry is appended and the time of
    the interaction is set. *)
Theorem reply_without_members_clears_pending
    (io : extraction_io) (m : memory) (email_text : option string)
    (email_summary : string) (extracted : json) :
  truthy_str email_text = true →
  extraction_reply io = Ok extracted →
  py_in "core_attributes" extracted = Ok false →
  py_in "user_info" extracted = Ok false →
  let m' := (update_memory_from_response io m email_text email_summary).1 in
  core_attributes m' = core_attributes m
  ∧ user_info m' = user_info m
  ∧ pending_question m' = None
  ∧ conversation_history m'
    = (conversation_history m ++
       [ {| timestamp := now_history io;
            user_message := email_summary;
            extracted_info := extracted |} ])%list
  ∧ last_interaction m' = Some (now_last io).
Proof.
  intros Htext Hreply Hcore Hinfo. cbv zeta.
  assert (Hmerge : merge_extracted m extracted = (m, None)).
  { unfold merge_extracted, update_from. rewrite Hcore, Hinfo. by destruct m. }
  destruct (update_memory_from_response_merged io m email_text email_summary
              extracted m Htext Hreply Hmerge) as (_ & _ & Hp & Hh & Hl).
  destruct (update_memory_from_response_dicts io m email_text email_summary
              extracted Htext Hreply) as [Hc Hi].
  rewrite Hmerge in Hc, Hi. by simpl in *.
Qed.

Lemma reply_without_members_clears_pending_witness :
  pending_question
    (update_memory_from_response (answering no_weather (Ok (JArr [])))
       settled_awaiting_reply (Some "hello") "greeting").1 = None.
Proof.
  apply (reply_without_members_clears_pending (answering no_weather (Ok (JArr [])))
           settled_awaiting_reply (Some "hello") "greeting" (JArr []));
    reflexivity.
Defined.

(** ** News fetch, continued *)

Lemma mapM_result_ok {A B} (f : A → result B) (l : list A) (ys : list B) :
  mapM f l = Ok ys ↔ Forall2 (fun x y => f x = Ok y) l ys.
Proof.
  revert ys. induction l as [|x l IH]; intros ys; simpl.
  - split.
    + intros [= <-]. constructor.
    + intros Hall. by inversion Hall.
  - split.
    + destruct (f x) as [y|] eqn:Hx; simpl; [|done].
      destruct (mapM f l) as [k|] eqn:Hl; simpl; [|done].
      intros [= <-]. constructor; [done|]. by apply IH.
    + intros Hall. inversion Hall as [|? y ? k Hx Hrest]; subst.
      rewrite Hx. simpl. apply IH in Hrest. by rewrite Hrest.
Qed.

Lemma mapM_result_raised {A B} (f : A → result B) (l : list A) :
  raised (mapM f l) ↔ ∃ x, x ∈ l ∧ raised (f x).
Proof.
  induction l as [|x l IH]; simpl.
  - split; [done|]. intros (x & Hx & _). by apply elem_of_nil in Hx.
  - destruct (f x) as [y|e] eqn:Hx; simpl.
    + destruct (mapM f l) as [k|e] eqn:Hl; simpl in *.
      * split; [done|]. intros (z & Hz & Hraised).
        apply elem_of_cons in Hz as [->|Hz]; [by rewrite Hx in Hraised|].
        apply IH. by exists z.
      * split; [|done]. intros _. destruct IH as [(z & Hz & Hraised) _]; [done|].
        exists z. split; [by right|done].
    + split; [|done]. intros _. exists x. split; [by left|by rewrite Hx].
Qed.

(** A headline built from an article has the three keys the rest of the
    program reads. *)
Lemma news_item_keys (article item : json) :
  news_item article = Ok item →
  ∃ title url source,
    item = JObj [("title", title); ("url", url); ("source", source)].
Proof.
  unfold news_item. intros Hitem.
  repeat match type of Hitem with
         | (?r ≫= _) = Ok _ => destruct r; simpl in Hitem; [|discriminate]
         end.
  injection Hitem as <-. by eexists _, _, _.
Qed.

(** What the fetch returns with a key: the headlines, when the answer
    decodes into them, and one placeholder otherwise. *)
Lemma get_daily_news_headlines_cases
    (exn_str : exn → string) (key : option string) (news_reply : result json) :
  truthy_str key = true →
  let headlines :=
    data ← news_reply; articles ← get_articles data;
    items ← py_iter articles; mapM news_item items in
  (get_daily_news_headlines exn_str key news_reply).1
  = match headlines with
    | Ok news_items => news_items
    | Raise e => [JObj [("title", JStr ("Error fetching news: " +:+ exn_str e));
                        ("url", JNull)]]
    end.
Proof.
  intros Hkey. unfold get_daily_news_headlines. rewrite Hkey. cbn [negb].
  by destruct (_ ≫= _).
Qed.

(** X13: every list the news fetch returns, placeholder or not, has a title
    in each item, so the list of titles that [get_daily_gossip] builds from
    it never raises. *)
Theorem headlines_always_have_titles
    (exn_str : exn → string) (key : option string) (news_reply : result json) :
  ∃ titles,
    mapM (fun news => py_getitem news "title")
         (get_daily_news_headlines exn_str key news_reply).1 = Ok titles.
Proof.
  destruct (truthy_str key) eqn:Hkey.
  2: { unfold get_daily_news_headlines. rewrite Hkey. by eexists. }
  rewrite (get_daily_news_headlines_cases exn_str key news_reply Hkey).
  destruct (_ ≫= _) as [news_items|e] eqn:Hfetch; [|by eexists].
  assert (Hitems : ∃ items, mapM news_item items = Ok news_items).
  { destruct news_reply as [data|]; [|done]. simpl in Hfetch.
    destruct (get_articles data) as [articles|]; [|done]. simpl in Hfetch.
    destruct (py_iter articles) as [items|]; [|done]. by exists items. }
  destruct Hitems as [items Hitems]. apply mapM_result_ok in Hitems.
  clear Hfetch. induction Hitems as [|article item items news_items Hitem _ IH].
  - by eexists.
  - destruct IH as [titles IH].
    apply news_item_keys in Hitem as (title & url & source & ->).
    exists (title :: titles).
    change (mapM ?f (?x :: ?l)) with (y ← f x; k ← mapM f l; mret (y :: k)).
    rewrite IH. reflexivity.
Qed.

(** X14: the headlines are all or nothing.  When the service answers with a
    list of articles and every article has a title, a url and a named
    source, the fetch returns one headline per article, in order, however
    many there are; when a single article lacks one of them, it returns the
    placeholder alone. *)
Theorem headlines_all_or_nothing
    (exn_str : exn → string) (key : option string)
    (top : list (string * json)) (articles : list json) :
  truthy_str key = true →
  obj_lookup top "articles" = Some (JArr articles) →
  let news := (get_daily_news_headlines exn_str key (Ok (JObj top))).1 in
  (∀ headlines, Forall2 (fun article item => news_item article = Ok item)
                        articles headlines → news = headlines)
  ∧ ((∃ article, article ∈ articles ∧ raised (news_item article)) →
     ∃ e, news = [JObj [("title", JStr ("Error fetching news: " +:+ exn_str e));
                        ("url", JNull)]]).
Proof.
  intros Hkey Harticles. cbv zeta.
  rewrite (get_daily_news_headlines_cases exn_str key _ Hkey).
  simpl. rewrite Harticles. simpl. split.
  - intros headlines Hall. apply mapM_result_ok in Hall. by rewrite Hall.
  - intros Hbad. apply mapM_result_raised in Hbad.
    destruct (mapM news_item articles) as [|e]; [done|]. by exists e.
Qed.

(** X15: an answer that is an object without an [articles] member, as an
    error body is, gives an empty list and no placeholder; the digest
    composer then has no headline to format and goes on to the completion
    call. *)
Theorem answer_without_articles_gives_no_headlines
    (py_str : json → string) (exn_str : exn → string) (isspace : ascii → bool)
    (key : option string) (top : list (string * json))
    (compose_reply : result (option string))
    (inline_response random_fact daily_gossip : string) (m : memory) :
  truthy_str key = true →
  obj_lookup top "articles" = None →
  get_daily_news_headlines exn_str key (Ok (JObj top))
  = ([], [HttpGet "https://newsapi.org/v2/top-headlines"])
  ∧ (build_daily_email_content py_str isspace compose_reply inline_response
       (get_daily_news_headlines exn_str key (Ok (JObj top))).1
       random_fact m daily_gossip).2
    = [ChatCompletion "gpt-4o-mini-2024-07-18"].
Proof.
  intros Hkey Harticles.
  assert (Hnews : get_daily_news_headlines exn_str key (Ok (JObj top))
                  = ([], [HttpGet "https://newsapi.org/v2/top-headlines"])).
  { unfold get_daily_news_headlines. rewrite Hkey. simpl. by rewrite Harticles. }
  rewrite Hnews. split; [done|].
  unfold build_daily_email_content. simpl.
  by destruct compose_reply as [[body|]|].
Qed.

Lemma headlines_all_or_nothing_witness :
  (get_daily_news_headlines exn_name (Some "k") (Ok one_article)).1
  = [JObj [("title", JStr "Rain expected"); ("url", JStr "https://example.org/rain");
           ("source", JStr "Example News")]].
Proof.
  destruct (headlines_all_or_nothing exn_name (Some "k")
              [("articles",
                JArr [JObj [("title", JStr "Rain expected");
                            ("url", JStr "https://example.org/rain");
                            ("source", JObj [("name", JStr "Example News")])]])]
              [JObj [("title", JStr "Rain expected");
                     ("url", JStr "https://example.org/rain");
                     ("source", JObj [("name", JStr "Example News")])]]
              eq_refl eq_refl) as [Hall _].
  apply Hall. repeat constructor.
Defined.

Lemma answer_without_articles_gives_no_headlines_witness :
  get_daily_news_headlines exn_name (Some "k") (Ok (JObj news_error_body))
  = ([], [HttpGet "https://newsapi.org/v2/top-headlines"]).
Proof.
  apply (answer_without_articles_gives_no_headlines str_of_text exn_name
           ascii_isspace (Some "k")
           news_error_body (Ok (Some "Good morning!")) "" "" "" empty_memory);
    reflexivity.
Defined.

(** ** Memory store, continued *)

Section StoreNormalises.

Variable list_of_set : gset string → list string.
Hypothesis list_of_set_elements : ∀ s, list_of_set s ≡ₚ elements s.

(** X16: loading a document and saving it again keeps every field, except
    that the two arrays come back without duplicates: each has exactly the
    elements it had, once each. *)
Theorem load_then_save_removes_duplicates (data : memory_document) :
  let saved := save_memory list_of_set (load_memory (Some data)) in
  NoDup (doc_questions_asked saved)
  ∧ (∀ x, x ∈ doc_questions_asked saved ↔ x ∈ doc_questions_asked data)
  ∧ NoDup (doc_topics_discussed saved)
  ∧ (∀ x, x ∈ doc_topics_discussed saved ↔ x ∈ doc_topics_discussed data)
  ∧ doc_user_info saved = doc_user_info data
  ∧ doc_core_attributes saved = doc_core_attributes data
  ∧ doc_conversation_history saved = doc_conversation_history data
  ∧ doc_last_interaction saved = doc_last_interaction data
  ∧ doc_weather_context saved = doc_weather_context data
  ∧ doc_pending_question saved = doc_pending_question data.
Proof.
  simpl.
  split; [rewrite list_of_set_elements; apply NoDup_elements|].
  split; [intros x; by rewrite list_of_set_elements, elem_of_elements,
                               elem_of_list_to_set|].
  split; [rewrite list_of_set_elements; apply NoDup_elements|].
  split; [intros x; by rewrite list_of_set_elements, elem_of_elements,
                               elem_of_list_to_set|].
  repeat split.
Qed.

End StoreNormalises.

Lemma load_then_save_removes_duplicates_witness :
  NoDup (doc_questions_asked
           (save_memory elements (load_memory (Some repetitive_document)))).
Proof.
  destruct (load_then_save_removes_duplicates elements
              (fun s => reflexivity (elements s)) repetitive_document) as [Hnodup _].
  exact Hnodup.
Defined.

(** ** The run, continued *)

Section RunReturns.

Variable py_str : json → string.
Variable exn_str : exn → string.
Variable list_of_set : gset string → list string.
Variable isspace : ascii → bool.

(** The loop, when it returns: every summary was returned, the memory went
    through the extractor once per email, and each email was logged. *)
Lemma process_emails_returns
    (emails : list inbound) (m : memory) (sums : list string) (s : run_state)
    (m' : memory) (sums' : list string) (s' : run_state) :
  process_emails emails m sums s = (Ok (m', sums'), s') →
  ∃ summaries,
    Forall2 (fun email summary => summary_reply email = Ok summary) emails summaries
    ∧ sums' = (sums ++ summaries)%list
    ∧ m' = extract_all m (zip emails summaries)
    ∧ chat_log_file (disk s')
      = append_log (chat_log_file (disk s)) (zip_with incoming_entry emails summaries)
    ∧ memory_file (disk s') = memory_file (disk s).
Proof.
  revert m sums s. induction emails as [|email rest IH]; intros m sums s; simpl.
  - intros [= <- <- <-]. exists []. by rewrite app_nil_r.
  - rewrite bind_run. unfold external.
    destruct (summary_reply email) as [summary|] eqn:Hsummary; [|done].
    destruct (update_memory_from_response _ _ _ _) as [m1 calls] eqn:Hupdate.
    repeat (rewrite bind_run; simpl). intros Hrest.
    apply IH in Hrest as (summaries & Hall & -> & -> & Hlog & Hfile).
    exists (summary :: summaries). simpl in *.
    split; [by constructor|]. split; [by rewrite <- (assoc_L (++))|].
    split; [by rewrite Hupdate|]. split; [|done].
    rewrite Hlog. apply append_log_step.
Qed.

(** A run that returns: what it read, and what it left on disk. *)
Lemma main_returns (io : run_io) (s s' : run_state) :
  main py_str exn_str list_of_set isspace io s = (Ok tt, s') →
  ∃ emails summaries content,
    inbox io = Ok emails
    ∧ Forall2 (fun email summary => summary_reply email = Ok summary) emails summaries
    ∧ compose_reply io = Ok (Some content)
    ∧ send_outcome io = Ok tt
    ∧ memory_file (disk s')
      = Some (save_memory list_of_set
                (with_question py_str
                   (extract_all (load_memory (memory_file (disk s)))
                      (zip emails summaries))))
    ∧ chat_log_file (disk s')
      = Some (default [] (chat_log_file (disk s))
              ++ zip_with incoming_entry emails summaries
              ++ [Outgoing (now_sent io) (subject_for (hour io))
                    (py_strip isspace content)])%list.
Proof.
  unfold main. rewrite bind_run. simpl. rewrite bind_run. unfold external.
  destruct (inbox io) as [emails|]; [|done].
  rewrite bind_run.
  destruct (process_emails _ _ _ _) as [[[m1 sums]|] s1] eqn:Hloop; [|done].
  apply process_emails_returns in Hloop as (summaries & Hall & _ & -> & Hlog & Hfile).
  simpl in Hlog, Hfile.
  rewrite bind_run.
  match goal with
  | |- context [match ?p s1 with _ => _ end] =>
      assert (Hinline : disk (p s1).2 = disk s1)
        by (destruct sums; [done|by destruct (inline_reply io)]);
      destruct (p s1) as [[inline_response|] s2]; [|done]
  end.
  simpl in Hinline.
  destruct (get_daily_news_headlines _ _ _) as [news_list calls].
  repeat (rewrite bind_run; simpl).
  destruct (fact_reply io) as [random_fact|]; [|done].
  repeat (rewrite bind_run; simpl). unfold lift.
  destruct (mapM _ news_list) as [titles|]; [|done].
  repeat (rewrite bind_run; simpl).
  destruct (gossip_reply io) as [daily_gossip|]; [|done].
  pose proof (build_daily_email_content_returns py_str isspace (compose_reply io)
                inline_response news_list random_fact
                (extract_all (load_memory (memory_file (disk s))) (zip emails summaries))
                daily_gossip) as Hbody.
  pose proof (digest_question_recorded py_str isspace (compose_reply io)
                inline_response news_list random_fact
                (extract_all (load_memory (memory_file (disk s))) (zip emails summaries))
                daily_gossip) as Hrecorded.
  destruct (build_daily_email_content _ _ _ _ _ _ _ _) as [[[body m2]|] calls'].
  2: { repeat (rewrite bind_run; simpl). done. }
  destruct (Hbody body m2 eq_refl) as (content & Hcontent & ->).
  specialize (Hrecorded _ m2 eq_refl).
  repeat (rewrite bind_run; simpl).
  destruct (send_outcome io) as [[]|]; [|done].
  repeat (rewrite bind_run; simpl).
  intros [= <-]. simpl. exists emails, summaries, content.
  rewrite Hinline, Hlog, Hrecorded.
  repeat split; try done.
  destruct (zip_with incoming_entry emails summaries); simpl; [done|].
  by rewrite <- (assoc_L (++)).
Qed.

(** X17: a run that returns has saved exactly this: the memory it loaded,
    taken through the extractor once for each email of the inbox, in order,
    with the question of the digest recorded as pending and asked. *)
Theorem successful_run_saves_extracted_memory (io : run_io) (s s' : run_state) :
  main py_str exn_str list_of_set isspace io s = (Ok tt, s') →
  ∃ emails summaries,
    inbox io = Ok emails
    ∧ Forall2 (fun email summary => summary_reply email = Ok summary) emails summaries
    ∧ memory_file (disk s')
      = Some (save_memory list_of_set
                (with_question py_str
                   (extract_all (load_memory (memory_file (disk s)))
                      (zip emails summaries)))).
Proof.
  intros Hrun.
  apply main_returns in Hrun as (emails & summaries & body & Hinbox & Hall & _ & _ & Hfile & _).
  by exists emails, summaries.
Qed.

(** X18: a run that returns has appended to the chat log one incoming entry
    for each email of the inbox, in order and with its summary, followed by
    one outgoing entry that carries the subject of the hour and, for its
    body, the content of the composer's completion with the whitespace at
    its two ends stripped; the entries that were there stay in front (none,
    when the log was missing or did not decode). *)
Theorem successful_run_appends_to_chat_log (io : run_io) (s s' : run_state) :
  main py_str exn_str list_of_set isspace io s = (Ok tt, s') →
  ∃ emails summaries content,
    inbox io = Ok emails
    ∧ Forall2 (fun email summary => summary_reply email = Ok summary) emails summaries
    ∧ compose_reply io = Ok (Some content)
    ∧ chat_log_file (disk s')
      = Some (default [] (chat_log_file (disk s))
              ++ zip_with incoming_entry emails summaries
              ++ [Outgoing (now_sent io) (subject_for (hour io))
                    (py_strip isspace content)])%list.
Proof.
  intros Hrun.
  apply main_returns in Hrun
    as (emails & summaries & content & Hinbox & Hall & Hcontent & _ & _ & Hlog).
  by exists emails, summaries, content.
Qed.

End RunReturns.

(** ** Fetching the emails *)

Lemma append_cons (x : ascii) (a b : string) : String x a +:+ b = String x (a +:+ b).
Proof. reflexivity. Qed.

Lemma append_empty_l (b : string) : "" +:+ b = b.
Proof. reflexivity. Qed.

Lemma append_assoc (a b c : string) : (a +:+ b) +:+ c = a +:+ (b +:+ c).
Proof.
  induction a as [|x a IH]; [done|]. by rewrite !append_cons, IH.
Qed.

Lemma append_empty_r (a : string) : a +:+ "" = a.
Proof.
  induction a as [|x a IH]; [done|]. by rewrite append_cons, IH.
Qed.

Lemma append_empty_inv (a b : string) : a +:+ b = "" → a = "" ∧ b = "".
Proof. destruct a; [done|]. by rewrite append_cons. Qed.

Lemma concat_empty_cons (x : string) (l : list string) :
  String.concat "" (x :: l) = x +:+ String.concat "" l.
Proof.
  destruct l as [|y l]; simpl; [by rewrite append_empty_r|].
  by rewrite append_empty_l.
Qed.

Section FetchProperties.

Variable isspace : ascii → bool.

Lemma no_space_append (a b : string) :
  no_space isspace (a +:+ b) = no_space isspace a && no_space isspace b.
Proof.
  induction a as [|x a IH]; [done|].
  rewrite append_cons. simpl. by rewrite IH, andb_assoc.
Qed.

(** Splitting returns words. *)
Lemma split_from_words (s word : string) :
  no_space isspace word = true →
  Forall (is_word isspace) (split_from isspace word s).
Proof.
  revert word. induction s as [|c rest IH]; intros word Hword; simpl.
  - destruct word; [constructor|]. by repeat constructor.
  - destruct (isspace c) eqn:Hc.
    + destruct word; [by apply IH|].
      constructor; [done|by apply IH].
    + apply IH. rewrite no_space_append, Hword. simpl. by rewrite Hc.
Qed.

(** Reading a stretch without whitespace adds it to the word in hand. *)
Lemma split_from_word (w word s : string) :
  no_space isspace w = true →
  split_from isspace word (w +:+ s) = split_from isspace (word +:+ w) s.
Proof.
  revert word. induction w as [|c w IH]; intros word Hw.
  - by rewrite append_empty_l, append_empty_r.
  - simpl in Hw. apply andb_true_iff in Hw as [Hc Hw].
    apply negb_true_iff in Hc. rewrite append_cons. simpl.
    rewrite Hc, (IH _ Hw). by rewrite append_assoc.
Qed.

Lemma split_from_space (c : ascii) (word rest : string) :
  isspace c = true →
  split_from isspace word (String c rest)
  = match word with
    | EmptyString => split_from isspace "" rest
    | _ => word :: split_from isspace "" rest
    end.
Proof. intros Hc. simpl. by rewrite Hc. Qed.

Lemma split_from_nothing (s word : string) :
  split_from isspace word s = [] ↔ word = "" ∧ all_space isspace s = true.
Proof.
  revert word. induction s as [|c rest IH]; intros word; simpl.
  - destruct word; split; try done. by intros [[=] _].
  - destruct (isspace c); simpl.
    + destruct word; [|split; [done|by intros [[=] _]]].
      rewrite IH. split; [by intros [_ ?]|by intros [_ ?]].
    + rewrite IH. split; [|by intros [_ [=]]].
      intros [Hempty _]. apply append_empty_inv in Hempty as [_ [=]].
Qed.

Lemma join_spaces_empty (words : list string) :
  Forall (is_word isspace) words → join_spaces words = "" → words = [].
Proof.
  destruct 1 as [|w words [Hw _] Hwords]; [done|].
  simpl. destruct words; [done|].
  intros Hempty. by apply append_empty_inv in Hempty as [-> _].
Qed.

Lemma collapse_whitespace_blank (body_text : string) :
  all_space isspace body_text = true → collapse_whitespace isspace body_text = "".
Proof.
  intros Hblank. unfold collapse_whitespace, py_split.
  assert (Hnone : split_from isspace "" body_text = [])
    by (by apply split_from_nothing).
  by rewrite Hnone.
Qed.

(** X23: the text read from a multipart message is the texts of its
    [text/plain] parts, in the order of the walk, with nothing put between
    them; a message none of whose parts is [text/plain] has no text at all,
    whatever its parts hold. *)
Theorem multipart_text_is_plain_parts_joined (parsed : parsed_email) :
  is_multipart parsed = true →
  plain_text parsed
  = String.concat ""
      (part_text <$> List.filter (fun part => String.eqb (content_type part) "text/plain")
                                 (walk parsed))
  ∧ (Forall (fun part => content_type part ≠ "text/plain") (walk parsed) →
     plain_text parsed = "").
Proof.
  intros Hmulti.
  assert (Hnone : ∀ parts,
            Forall (fun part : message_part => content_type part ≠ "text/plain") parts →
            List.filter (fun part => String.eqb (content_type part) "text/plain") parts
            = []).
  { induction 1 as [|part parts Hpart _ IH]; simpl; [done|].
    apply String.eqb_neq in Hpart. by rewrite Hpart. }
  cut (plain_text parsed
       = String.concat ""
           (part_text <$> List.filter
              (fun part => String.eqb (content_type part) "text/plain") (walk parsed))).
  { intros Heq. split; [done|]. intros Hhtml. by rewrite Heq, (Hnone _ Hhtml). }
  unfold plain_text. rewrite Hmulti.
  assert (Hfold : ∀ parts body_text,
            foldl (fun body_text part =>
                     if String.eqb (content_type part) "text/plain"
                     then body_text +:+ part_text part else body_text)
                  body_text parts
            = body_text +:+ String.concat ""
                (part_text <$> List.filter
                   (fun part => String.eqb (content_type part) "text/plain") parts)).
  { induction parts as [|part parts IH]; intros body_text; simpl.
    - by rewrite append_empty_r.
    - rewrite IH. destruct (String.eqb (content_type part) "text/plain"); [|done].
      rewrite fmap_cons, concat_empty_cons. apply append_assoc. }
  by rewrite Hfold, append_empty_l.
Qed.

Hypothesis space_isspace : isspace " " = true.

(** Splitting what was joined gives the words back. *)
Lemma split_join_spaces (words : list string) :
  Forall (is_word isspace) words →
  py_split isspace (join_spaces words) = words.
Proof.
  unfold py_split. induction 1 as [|w words [Hne Hw] Hwords IH]; [done|].
  destruct words as [|w' words].
  - simpl. rewrite <- (append_empty_r w) at 1.
    rewrite (split_from_word w "" "" Hw), append_empty_l.
    simpl. by destruct w.
  - change (join_spaces (w :: w' :: words))
      with (w +:+ String " " (join_spaces (w' :: words))).
    rewrite (split_from_word w "" _ Hw), append_empty_l.
    rewrite (split_from_space " " w _ space_isspace), IH. by destruct w.
Qed.

Lemma collapse_whitespace_again (body_text : string) :
  collapse_whitespace isspace (collapse_whitespace isspace body_text)
  = collapse_whitespace isspace body_text.
Proof.
  unfold collapse_whitespace. rewrite split_join_spaces; [done|].
  by apply split_from_words.
Qed.

(** X19: collapsing the whitespace of a text leaves words, none empty and
    none with whitespace inside, with one space between neighbours and none
    at either end; collapsing the result again changes nothing. *)
Theorem collapse_whitespace_normal_form (body_text : string) :
  (∃ words, collapse_whitespace isspace body_text = join_spaces words
            ∧ Forall (is_word isspace) words)
  ∧ collapse_whitespace isspace (collapse_whitespace isspace body_text)
    = collapse_whitespace isspace body_text.
Proof.
  split; [|apply collapse_whitespace_again].
  exists (py_split isspace body_text). split; [done|].
  by apply split_from_words.
Qed.

(** X20: the collapsed text is empty exactly when the text was whitespace
    only (or empty). *)
Theorem collapse_whitespace_empty_iff (body_text : string) :
  collapse_whitespace isspace body_text = "" ↔ all_space isspace body_text = true.
Proof.
  unfold collapse_whitespace, py_split. split.
  - intros Hempty. apply join_spaces_empty in Hempty.
    + by apply split_from_nothing in Hempty as [_ ?].
    + by apply split_from_words.
  - apply collapse_whitespace_blank.
Qed.

Lemma fetch_each_collapsed (box : mailbox) (msg_ids : list string)
    (collected email_bodies : list (string * string)) :
  fetch_each isspace box msg_ids collected = Ok email_bodies →
  Forall (fun pair => collapse_whitespace isspace pair.2 = pair.2) collected →
  Forall (fun pair => collapse_whitespace isspace pair.2 = pair.2) email_bodies
  ∧ (length email_bodies ≤ length collected + length msg_ids)%nat.
Proof.
  revert collected. induction msg_ids as [|msg_id rest IH]; intros collected; simpl.
  - intros [= <-] Hcollected. split; [done|lia].
  - destruct (fetch box msg_id) as [[res parsed]|]; simpl; [|done].
    destruct (String.eqb res "OK").
    + intros Hrest Hcollected. apply IH in Hrest as [Hall Hlen].
      * split; [done|]. rewrite length_app in Hlen. simpl in Hlen. lia.
      * apply Forall_app. split; [done|]. constructor; [|done]. simpl.
        apply collapse_whitespace_again.
    + intros Hrest Hcollected. apply IH in Hrest as [Hall Hlen]; [|done].
      split; [done|lia].
Qed.

(** X21: when [fetch_emails] returns, the search had answered; no more pairs
    are returned than the search listed messages, none at all unless its
    status was [OK], and the text of every pair has its whitespace
    collapsed. *)
Theorem fetch_emails_returns_collapsed_text
    (box : mailbox) (email_bodies : list (string * string)) :
  fetch_emails isspace box = Ok email_bodies →
  ∃ status msg_ids,
    search box = Ok (status, msg_ids)
    ∧ (length email_bodies ≤ length msg_ids)%nat
    ∧ (status ≠ "OK" → email_bodies = [])
    ∧ Forall (fun pair => collapse_whitespace isspace pair.2 = pair.2) email_bodies.
Proof.
  unfold fetch_emails.
  destruct (connect box); simpl; [|done].
  destruct (search box) as [[status msg_ids]|]; simpl; [|done].
  intros Hfetch. exists status, msg_ids. split; [done|].
  destruct (String.eqb status "OK") eqn:Hstatus; simpl in Hfetch.
  - assert (Hloop : ∃ found, fetch_each isspace box msg_ids [] = Ok found
                             ∧ email_bodies = found).
    { destruct msg_ids as [|msg_id rest].
      - simpl in Hfetch. destruct (disconnect box); simpl in Hfetch; [|done].
        injection Hfetch as <-. by exists [].
      - destruct (fetch_each isspace box (msg_id :: rest) []) as [found|];
          simpl in Hfetch; [|done].
        destruct (disconnect box); simpl in Hfetch; [|done].
        injection Hfetch as <-. by exists found. }
    destruct Hloop as (found & Hloop & ->).
    apply fetch_each_collapsed in Hloop as [Hall Hlen]; [|constructor].
    split; [simpl in Hlen; lia|]. split; [|done].
    intros Hne. by apply String.eqb_eq in Hstatus.
  - destruct (disconnect box); simpl in Hfetch; [|done].
    injection Hfetch as <-. split; [simpl; lia|]. split; [done|constructor].
Qed.

End FetchProperties.

(** X22: a message without text (its plain text is empty or whitespace
    only, as for a multipart message that has no [text/plain] part) comes out
    of the whitespace collapse as the empty string, and the extractor, given
    that string for the email text, returns the memory as it was without
    making a call. *)
Theorem blank_message_leaves_memory_alone
    (isspace : ascii → bool) (parsed : parsed_email)
    (io : extraction_io) (m : memory) (email_summary : string) :
  all_space isspace (plain_text parsed) = true →
  collapse_whitespace isspace (plain_text parsed) = ""
  ∧ update_memory_from_response io m
      (Some (collapse_whitespace isspace (plain_text parsed))) email_summary
    = (m, []).
Proof.
  intros Hblank.
  apply collapse_whitespace_blank in Hblank. by rewrite Hblank.
Qed.

Lemma collapse_whitespace_normal_form_witness :
  collapse_whitespace ascii_isspace
    (collapse_whitespace ascii_isspace "  I'm  in Austin ")
  = collapse_whitespace ascii_isspace "  I'm  in Austin ".
Proof.
  apply (collapse_whitespace_normal_form ascii_isspace). reflexivity.
Defined.

Lemma fetch_emails_returns_collapsed_text_witness :
  ∃ status msg_ids,
    search one_blank_message = Ok (status, msg_ids)
    ∧ (length [("ChatBot", "")] ≤ length msg_ids)%nat
    ∧ (status ≠ "OK" → [("ChatBot", "")] = [])
    ∧ Forall (fun pair => collapse_whitespace ascii_isspace pair.2 = pair.2)
             [("ChatBot", "")].
Proof.
  apply (fetch_emails_returns_collapsed_text ascii_isspace eq_refl one_blank_message).
  reflexivity.
Defined.

Lemma blank_message_leaves_memory_alone_witness :
  update_memory_from_response (answering weather_up (Ok austin)) empty_memory
    (Some (collapse_whitespace ascii_isspace (plain_text blank_message))) "Empty"
  = (empty_memory, []).
Proof.
  apply (blank_message_leaves_memory_alone ascii_isspace blank_message).
  reflexivity.
Defined.

(** ** The run, continued *)

(** The extractor keeps the two sets and the history it was given. *)
Lemma update_memory_from_response_keeps
    (io : extraction_io) (m : memory) (email_text : option string)
    (email_summary : string) :
  let m' := (update_memory_from_response io m email_text email_summary).1 in
  questions_asked m' = questions_asked m
  ∧ topics_discussed m' = topics_discussed m
  ∧ conversation_history m `prefix_of` conversation_history m'.
Proof.
  cbv zeta. unfold update_memory_from_response.
  destruct (negb (truthy_str email_text)); [done|].
  destruct (extraction_reply io) as [extracted|]; [|done].
  pose proof (merge_extracted_frame m extracted) as (Hh & Ht & Hq & _).
  destruct (merge_extracted m extracted) as [merged [e|]]; simpl in *.
  { by rewrite Hh, Ht, Hq. }
  destruct (truthy (dict_get (core_attributes merged) "location")).
  - destruct (get_weather_context _ _ _) as [weather_data requests].
    destruct (truthy weather_data); simpl; rewrite Hh, Ht, Hq;
      (split; [done|split; [done|by apply prefix_app_r]]).
  - simpl. rewrite Hh, Ht, Hq. split; [done|split; [done|by apply prefix_app_r]].
Qed.

Lemma extract_all_keeps (processed : list (inbound * string)) (m : memory) :
  questions_asked (extract_all m processed) = questions_asked m
  ∧ topics_discussed (extract_all m processed) = topics_discussed m
  ∧ conversation_history m `prefix_of` conversation_history (extract_all m processed).
Proof.
  revert m. induction processed as [|[email summary] processed IH]; intros m; simpl.
  - done.
  - destruct (IH (update_memory_from_response (extraction email) m
                    (Some (body_text email)) summary).1) as (-> & -> & Hh).
    destruct (update_memory_from_response_keeps (extraction email) m
                (Some (body_text email)) summary) as (-> & -> & Hh0).
    split; [done|]. split; [done|]. by etrans.
Qed.

Lemma with_question_keeps (py_str : json → string) (m : memory) :
  questions_asked m ⊆ questions_asked (with_question py_str m)
  ∧ topics_discussed (with_question py_str m) = topics_discussed m
  ∧ conversation_history (with_question py_str m) = conversation_history m.
Proof.
  unfold with_question. destruct (get_next_question py_str m); simpl; [|done].
  split; [set_solver|done].
Qed.

Section RunKeeps.

Variable py_str : json → string.
Variable exn_str : exn → string.
Variable list_of_set : gset string → list string.
Variable isspace : ascii → bool.
Hypothesis list_of_set_elements : ∀ s, list_of_set s ≡ₚ elements s.

(** X24: in a run that returns, and in a run that ends without having
    written the memory file, the memory found on disk afterwards has every
    question the memory before it had in [questions_asked], the same
    [topics_discussed], and a history that starts with the history before:
    such a run never forgets an asked question or a history entry.  (A run
    in which the write of the memory file itself fails is not among
    these.) *)
Theorem stored_memory_only_grows (io : run_io) (s : run_state) :
  let out := main py_str exn_str list_of_set isspace io s in
  let before := load_memory (memory_file (disk s)) in
  let after := load_memory (memory_file (disk out.2)) in
  out.1 = Ok tt
  ∨ FileWrite memory_filename ∉ drop (length (trace s)) (trace out.2) →
  questions_asked before ⊆ questions_asked after
  ∧ topics_discussed after = topics_discussed before
  ∧ conversation_history before `prefix_of` conversation_history after.
Proof.
  cbv zeta. intros Hscope.
  pose proof (main_outcome py_str exn_str list_of_set isspace io s) as Hout.
  destruct (main py_str exn_str list_of_set isspace io s) as [[[]|e] s'] eqn:Hrun;
    simpl in *.
  - apply main_returns in Hrun as (emails & summaries & _ & _ & _ & _ & _ & -> & _).
    rewrite (save_then_load list_of_set list_of_set_elements).
    destruct (with_question_keeps py_str
                (extract_all (load_memory (memory_file (disk s))) (zip emails summaries)))
      as (Hq & -> & ->).
    destruct (extract_all_keeps (zip emails summaries)
                (load_memory (memory_file (disk s)))) as (Hq' & -> & Hh).
    rewrite Hq' in Hq. done.
  - destruct Hout as [? ? _ _ _ Hkeep|? ? _ _ _ _ Hkeep|? ? _ _ Hok _ _ _];
      simpl in *; [by rewrite Hkeep..|done].
Qed.

End RunKeeps.

Lemma stored_memory_only_grows_witness :
  questions_asked (load_memory (memory_file (disk fresh_state)))
  ⊆ questions_asked
      (load_memory
         (memory_file
            (disk (main str_of_text exn_name elements ascii_isspace
                     (a_day [lucky_email] (Ok tt)) fresh_state).2))).
Proof.
  apply (stored_memory_only_grows str_of_text exn_name elements ascii_isspace
           (fun s => reflexivity (elements s)) (a_day [lucky_email] (Ok tt)) fresh_state).
  left. vm_compute. reflexivity.
Defined.

Lemma successful_run_saves_extracted_memory_witness :
  ∃ emails summaries,
    inbox (a_day [lucky_email] (Ok tt)) = Ok emails
    ∧ Forall2 (fun email summary => summary_reply email = Ok summary) emails summaries
    ∧ memory_file
        (disk (main str_of_text exn_name elements ascii_isspace
                 (a_day [lucky_email] (Ok tt)) fresh_state).2)
      = Some (save_memory elements
                (with_question str_of_text
                   (extract_all (load_memory (memory_file (disk fresh_state)))
                      (zip emails summaries)))).
Proof.
  apply (successful_run_saves_extracted_memory str_of_text exn_name elements
           ascii_isspace (a_day [lucky_email] (Ok tt)) fresh_state).
  vm_compute. reflexivity.
Defined.

Lemma successful_run_appends_to_chat_log_witness :
  ∃ emails summaries content,
    inbox (a_padded_day [lucky_email]) = Ok emails
    ∧ Forall2 (fun email summary => summary_reply email = Ok summary) emails summaries
    ∧ compose_reply (a_padded_day [lucky_email]) = Ok (Some content)
    ∧ chat_log_file
        (disk (main str_of_text exn_name elements ascii_isspace
                 (a_padded_day [lucky_email]) fresh_state).2)
      = Some (default [] (chat_log_file (disk fresh_state))
              ++ zip_with incoming_entry emails summaries
              ++ [Outgoing (now_sent (a_padded_day [lucky_email]))
                    (subject_for (hour (a_padded_day [lucky_email])))
                    (py_strip ascii_isspace content)])%list.
Proof.
  apply (successful_run_appends_to_chat_log str_of_text exn_name elements
           ascii_isspace (a_padded_day [lucky_email]) fresh_state).
  vm_compute. reflexivity.
Defined.

(** On that day the body that is logged has lost the line feed and the
    space. *)
Example a_padded_day_logs_the_stripped_body :
  chat_log_file
    (disk (main str_of_text exn_name elements ascii_isspace
             (a_padded_day []) fresh_state).2)
  = Some [Outgoing "2024-05-01T08:00:05" (subject_for 8) "Good morning!"].
Proof. vm_compute. reflexivity. Qed.

Lemma multipart_text_is_plain_parts_joined_witness :
  plain_text three_part_message = "I'm inAustin".
Proof.
  destruct (multipart_text_is_plain_parts_joined three_part_message eq_refl) as [Htext _].
  rewrite Htext. reflexivity.
Defined.
